(** * figma-mcp-server: resource addressing and document normalisation

    A shallow embedding of
    - [validateUri]            (middleware/auth.ts),
    - [transformFigmaNode] and its helpers (utils/transform.ts),
    - [FigmaResourceHandler.list] and [FigmaResourceHandler.watch]
      (handlers/figma.ts),
    together with the properties the specification states about them. *)

From Stdlib Require Import String Ascii List Bool Arith NArith ZArith Lia.
From Stdlib Require Import Floats.SpecFloat.
From Stdlib Require Import DecimalString.
Import ListNotations.

Set Warnings "-register-all".
Local Open Scope string_scope.

(** ** Exceptions and the error monad

    The TypeScript code signals failure by [throw]; a computation that may
    throw returns a [result]. *)

Inductive exn : Type :=
| TypeError
| InvalidUriError (uri : string)
| ResourceNotFoundError (message : string)
| ResourceAccessDeniedError (message : string)
| Error (message : string).

Inductive result (A : Type) : Type :=
| OK (a : A)
| Throw (e : exn).

Arguments OK {A} a.
Arguments Throw {A} e.

Definition bind {A B : Type} (c : result A) (k : A -> result B) : result B :=
  match c with
  | OK a => k a
  | Throw e => Throw e
  end.

Notation "x <- c ;; k" := (bind c (fun x => k))
  (at level 61, c at next level, right associativity).

(** [Array.prototype.map] with a callback that may throw: the first
    exception aborts the traversal. *)
Definition mapM {A B : Type} (f : A -> result B) : list A -> result (list B) :=
  fix go (l : list A) : result (list B) :=
    match l with
    | [] => OK []
    | a :: l' => b <- f a ;; bs <- go l' ;; OK (b :: bs)
    end.

(** ** JavaScript values

    The payloads come out of [response.json()], so they are JSON values
    (plus [undefined], the result of reading an absent property).  A string
    is a sequence of code units (here the units below 256, one [ascii]
    each), so [String.length] and [String.substring] are [.length] and
    [.substring]; an object is the list of its own properties in insertion
    order; a number is an IEEE 754 binary float. *)

Module Js.

Definition number : Type := spec_float.

Inductive value : Type :=
| Undefined
| Null
| Bool (b : bool)
| Num (n : number)
| Str (s : string)
| Arr (items : list value)
| Obj (props : list (string * value)).

(** [typeof v] *)
Inductive type_tag : Type :=
| TUndefined | TObject | TBoolean | TNumber | TString.

Definition typeof (v : value) : type_tag :=
  match v with
  | Undefined => TUndefined
  | Null => TObject
  | Bool _ => TBoolean
  | Num _ => TNumber
  | Str _ => TString
  | Arr _ => TObject
  | Obj _ => TObject
  end.

(** [ToBoolean]: [undefined], [null], [false], [+0], [-0], [NaN] and the
    empty string are falsy, everything else is truthy. *)
Definition truthy (v : value) : bool :=
  match v with
  | Undefined | Null => false
  | Bool b => b
  | Num (S754_zero _) | Num S754_nan => false
  | Num _ => true
  | Str "" => false
  | Str _ => true
  | Arr _ | Obj _ => true
  end.

(** Reading property [key] of [v] and passing it to [f].  On an object
    the first binding of [key] is the property; none of the property
    names read by this program exists on a primitive, on an array or on
    a prototype, so every other read yields [undefined].  ([v] is not
    [null] or [undefined] here: those reads throw, see [nullish].) *)
Definition getWith {A : Type} (f : value -> A) (key : string) (v : value) : A :=
  match v with
  | Obj props =>
      (fix go (ps : list (string * value)) : A :=
         match ps with
         | [] => f Undefined
         | (k, x) :: rest => if String.eqb k key then f x else go rest
         end) props
  | _ => f Undefined
  end.

Definition get (v : value) (key : string) : value :=
  getWith (fun x => x) key v.

(** [v == null]: the values on which a property read throws. *)
Definition nullish (v : value) : bool :=
  match v with
  | Undefined | Null => true
  | _ => false
  end.

End Js.

Import Js.

(** ** utils/transform.ts: the minimal node structure *)

Module Color.
Record t : Type := mk { r : number; g : number; b : number; a : number }.
End Color.

Module Fill.
Record t : Type := mk { type : string; color : option Color.t }.
End Fill.

Module BoundingBox.
Record t : Type := mk { x : number; y : number; width : number; height : number }.
End BoundingBox.

Module Style.
Record t : Type := mk {
  fontFamily : option string;
  fontSize : option number;
  fontWeight : option number;
  letterSpacing : option number;
  lineHeight : option number;
  textAlignHorizontal : option string;
  fills : option (list Fill.t)
}.

(** [Object.keys(result).length > 0] *)
Definition hasKeys (s : t) : bool :=
  match s with
  | mk None None None None None None None => false
  | _ => true
  end.
End Style.

(** [id], [name] and [type] are copied from the raw node without any check,
    so they hold whatever value the raw node has there. *)
Inductive MinimalFigmaNode : Type := mkNode {
  id : value;
  name : value;
  type : value;
  absoluteBoundingBox : option BoundingBox.t;
  style : option Style.t;
  characters : option string;
  children : option (list MinimalFigmaNode)
}.

(** ** utils/transform.ts: the transformation *)

Definition asNumber (v : value) : option number :=
  match v with
  | Num n => Some n
  | _ => None
  end.

Definition asString (v : value) : option string :=
  match v with
  | Str s => Some s
  | _ => None
  end.

Definition transformColor (color : value) : option Color.t :=
  if negb (truthy color) then None
  else match typeof color with
  | TObject =>
      match get color "r", get color "g", get color "b", get color "a" with
      | Num r, Num g, Num b, Num a => Some (Color.mk r g b a)
      | _, _, _, _ => None
      end
  | _ => None
  end.

Definition transformFill (fill : value) : option Fill.t :=
  if negb (truthy fill) then None
  else match typeof fill, get fill "type" with
  | TObject, Str ty =>
      if truthy (get fill "color")
      then Some (Fill.mk ty (transformColor (get fill "color")))
      else Some (Fill.mk ty None)
  | _, _ => None
  end.

(** [summarizeText(text, maxLength = 100)]: [defaultMaxLength] is the default
    of the second parameter, the only value the program calls it with. *)
Definition defaultMaxLength : nat := 100.

Definition summarizeText (text : string) (maxLength : nat) : string :=
  if Nat.ltb maxLength (String.length text)
  then String.substring 0 maxLength text ++ "..."
  else text.

(** [.map(transformFill).filter(fill => fill !== undefined)] *)
Fixpoint definedFills (l : list (option Fill.t)) : list Fill.t :=
  match l with
  | [] => []
  | Some f :: l' => f :: definedFills l'
  | None :: l' => definedFills l'
  end.

Definition transformLineHeight (lineHeight : value) : option number :=
  match lineHeight with
  | Num n => Some n
  | _ =>
      (* [style.lineHeight?.value && typeof style.lineHeight.value === 'number'] *)
      let v := if nullish lineHeight then Undefined else get lineHeight "value" in
      if truthy v then asNumber v else None
  end.

Definition transformFills (fills : value) : option (list Fill.t) :=
  match fills with
  | Arr items =>
      match definedFills (map transformFill items) with
      | [] => None
      | fs => Some fs
      end
  | _ => None
  end.

Definition transformStyle (style : value) : option Style.t :=
  if negb (truthy style) then None
  else match typeof style with
  | TObject =>
      let result :=
        Style.mk (asString (get style "fontFamily"))
                 (asNumber (get style "fontSize"))
                 (asNumber (get style "fontWeight"))
                 (asNumber (get style "letterSpacing"))
                 (transformLineHeight (get style "lineHeight"))
                 (asString (get style "textAlignHorizontal"))
                 (transformFills (get style "fills")) in
      if Style.hasKeys result then Some result else None
  | _ => None
  end.

Definition transformBoundingBox (box : value) : option BoundingBox.t :=
  if truthy box then
    match get box "x", get box "y", get box "width", get box "height" with
    | Num x, Num y, Num width, Num height => Some (BoundingBox.mk x y width height)
    | _, _, _, _ => None
    end
  else None.

Definition transformCharacters (type characters : value) : option string :=
  match type, characters with
  | Str ty, Str text =>
      if String.eqb ty "TEXT" then Some (summarizeText text defaultMaxLength) else None
  | _, _ => None
  end.

Fixpoint transformFigmaNode (node : value) : result MinimalFigmaNode :=
  if nullish node then Throw TypeError
  else
    children <-
      getWith (fun c =>
                 match c with
                 | Arr items => cs <- mapM transformFigmaNode items ;; OK (Some cs)
                 | _ => OK None
                 end) "children" node ;;
    OK (mkNode (get node "id") (get node "name") (get node "type")
               (transformBoundingBox (get node "absoluteBoundingBox"))
               (transformStyle (get node "style"))
               (transformCharacters (get node "type") (get node "characters"))
               children).

(** The recursive calls of [transformFigmaNode] on their own. *)
Definition transformChildren (children : value)
  : result (option (list MinimalFigmaNode)) :=
  match children with
  | Arr items => cs <- mapM transformFigmaNode items ;; OK (Some cs)
  | _ => OK None
  end.

(** The already-transformed node read back as a raw node (the object that
    [transformFigmaNode] returned, handed to it again). *)

Definition prop {A : Type} (key : string) (inj : A -> value) (o : option A)
  : list (string * value) :=
  match o with
  | Some a => [(key, inj a)]
  | None => []
  end.

Definition colorValue (c : Color.t) : value :=
  Obj [("r", Num (Color.r c)); ("g", Num (Color.g c));
       ("b", Num (Color.b c)); ("a", Num (Color.a c))].

Definition fillValue (f : Fill.t) : value :=
  Obj (("type", Str (Fill.type f)) :: prop "color" colorValue (Fill.color f)).

Definition boxValue (b : BoundingBox.t) : value :=
  Obj [("x", Num (BoundingBox.x b)); ("y", Num (BoundingBox.y b));
       ("width", Num (BoundingBox.width b)); ("height", Num (BoundingBox.height b))].

Definition styleValue (s : Style.t) : value :=
  Obj (prop "fontFamily" Str (Style.fontFamily s)
       ++ prop "fontSize" Num (Style.fontSize s)
       ++ prop "fontWeight" Num (Style.fontWeight s)
       ++ prop "letterSpacing" Num (Style.letterSpacing s)
       ++ prop "textAlignHorizontal" Str (Style.textAlignHorizontal s)
       ++ prop "lineHeight" Num (Style.lineHeight s)
       ++ prop "fills" (fun fs => Arr (map fillValue fs)) (Style.fills s)).

Fixpoint nodeValue (n : MinimalFigmaNode) : value :=
  Obj ([("id", id n); ("name", name n); ("type", type n)]
       ++ prop "absoluteBoundingBox" boxValue (absoluteBoundingBox n)
       ++ prop "style" styleValue (style n)
       ++ prop "characters" Str (characters n)
       ++ prop "children" (fun cs => Arr (map nodeValue cs)) (children n)).

(** ** Regular expressions

    The fragment of ECMAScript regular expressions that [validateUri] uses,
    with the backtracking semantics of the language: a matcher tries the
    alternatives of a quantifier in priority order (greedy first) and hands
    the rest of the input to its continuation; the first success wins.  A
    capture group that does not take part in the match stays [undefined]. *)

Module RegExp.

Inductive t : Type :=
| Bol                              (* ^ (no m flag) *)
| Eol                              (* $ (no m flag) *)
| Lit (s : string)                 (* a run of literal characters *)
| Plus (cls : ascii -> bool)       (* c+ for a character class c *)
| Opt (r : t)                      (* r? *)
| Seq (r1 r2 : t)                  (* r1 r2 *)
| Group (n : nat) (r : t).         (* the n-th capturing group ( r ) *)

(** [match[n]] *)
Definition captures : Type := nat -> option string.

Definition noCaptures : captures := fun _ => None.

Definition setGroup (n : nat) (text : string) (c : captures) : captures :=
  fun i => if Nat.eqb i n then Some text else c i.

(** Character classes: [\w], [[\w-]] and [.] (any unit but a line
    terminator; of the four terminators LF and CR fit in a one-byte
    code unit). *)
Definition inRange (lo hi ch : ascii) : bool :=
  (N_of_ascii lo <=? N_of_ascii ch)%N && (N_of_ascii ch <=? N_of_ascii hi)%N.

Definition word (ch : ascii) : bool :=
  inRange "a" "z" ch || inRange "A" "Z" ch || inRange "0" "9" ch
  || Ascii.eqb ch "_".

Definition wordOrHyphen (ch : ascii) : bool :=
  word ch || Ascii.eqb ch "-".

Definition dot (ch : ascii) : bool :=
  negb (Ascii.eqb ch "010" || Ascii.eqb ch "013").

Fixpoint dropPrefix (p s : string) : option string :=
  match p with
  | "" => Some s
  | String a p' =>
      match s with
      | String b s' => if Ascii.eqb a b then dropPrefix p' s' else None
      | "" => None
      end
  end.

(** The text between two positions, given the suffixes that start there. *)
Definition consumed (from to : string) : string :=
  String.substring 0 (String.length from - String.length to) from.

Definition cont : Type := string -> captures -> option captures.

(** [run input r s c k]: match [r] at the position of [input] where the
    suffix [s] starts, then continue with [k]. *)
Fixpoint run (input : string) (r : t) (s : string) (c : captures) (k : cont)
  : option captures :=
  match r with
  | Bol => if Nat.eqb (String.length s) (String.length input) then k s c else None
  | Eol => match s with
           | "" => k s c
           | String _ _ => None
           end
  | Lit l => match dropPrefix l s with
             | Some s' => k s' c
             | None => None
             end
  | Plus cls =>
      (fix more (s : string) : option captures :=
         match s with
         | "" => None
         | String ch s' =>
             if cls ch then
               match more s' with
               | Some c' => Some c'
               | None => k s' c
               end
             else None
         end) s
  | Opt r' => match run input r' s c k with
              | Some c' => Some c'
              | None => k s c
              end
  | Seq r1 r2 => run input r1 s c (fun s' c' => run input r2 s' c' k)
  | Group n r' => run input r' s c (fun s' c' => k s' (setGroup n (consumed s s') c'))
  end.

(** [RegExp.prototype.exec] without the g and y flags: the match is
    attempted at every start position, leftmost first. *)
Fixpoint execFrom (input : string) (r : t) (s : string) : option captures :=
  match run input r s noCaptures (fun s' c => Some (setGroup 0 (consumed s s') c)) with
  | Some c => Some c
  | None =>
      match s with
      | "" => None
      | String _ s' => execFrom input r s'
      end
  end.

Definition exec (r : t) (input : string) : option captures :=
  execFrom input r input.

End RegExp.

(** ** middleware/auth.ts *)

Record ResourceAddress : Type := mkAddress {
  fileKey : option string;
  resourceType : option string;
  resourceId : option string
}.

(** [/^figma:\/\/\/file\/([\w-]+)(\/(\w+)(\/(.+))?)?$/] *)
Definition uriPattern : RegExp.t :=
  let Seq := RegExp.Seq in
  let Group := RegExp.Group in
  Seq RegExp.Bol
  (Seq (RegExp.Lit "figma:///file/")
  (Seq (Group 1 (RegExp.Plus RegExp.wordOrHyphen))
  (Seq (RegExp.Opt (Group 2
         (Seq (RegExp.Lit "/")
         (Seq (Group 3 (RegExp.Plus RegExp.word))
              (RegExp.Opt (Group 4
                 (Seq (RegExp.Lit "/")
                      (Group 5 (RegExp.Plus RegExp.dot)))))))))
       RegExp.Eol))).

Definition validateUri (uri : string) : result ResourceAddress :=
  match RegExp.exec uriPattern uri with
  | None => Throw (InvalidUriError uri)
  | Some m => OK (mkAddress (m 1) (m 3) (m 5))
  end.

(** ** types.ts *)

Module FigmaFile.
Record t : Type := mk {
  key : string;
  name : string;
  lastModified : string;
  thumbnailUrl : string;
  version : string
}.
End FigmaFile.

Module FigmaResourceType.
Inductive t : Type :=
| file | nodes | images | comments | versions | components | styles | variables.

(** The string each member of the union type stands for. *)
Definition toString (ty : t) : string :=
  match ty with
  | file => "file"
  | nodes => "nodes"
  | images => "images"
  | comments => "comments"
  | versions => "versions"
  | components => "components"
  | styles => "styles"
  | variables => "variables"
  end.
End FigmaResourceType.

(** [description] is optional and no handler sets it. *)
Module FigmaResource.
Record t : Type := mk {
  uri : string;
  type : FigmaResourceType.t;
  name : string;
  metadata : list (string * string)
}.
End FigmaResource.

(** ** handlers/figma.ts

    The handler talks to the remote service through [fetch].  A handler
    method is a computation that records every request it sends and then
    returns or throws. *)

Record Request : Type := mkRequest {
  url : string;
  xFigmaToken : string
}.

Record Response (A : Type) : Type := mkResponse {
  status : N;
  statusText : string;
  json : A
}.

Arguments mkResponse {A} status statusText json.
Arguments status {A} r.
Arguments statusText {A} r.
Arguments json {A} r.

(** [response.ok] *)
Definition ok {A : Type} (response : Response A) : bool :=
  (200 <=? status response)%N && (status response <=? 299)%N.

Definition IO (A : Type) : Type := list Request -> list Request * result A.

Definition ret {A : Type} (a : A) : IO A := fun sent => (sent, OK a).

Definition throw {A : Type} (e : exn) : IO A := fun sent => (sent, Throw e).

Definition bindIO {A B : Type} (c : IO A) (k : A -> IO B) : IO B :=
  fun sent =>
    match c sent with
    | (sent', OK a) => k a sent'
    | (sent', Throw e) => (sent', Throw e)
    end.

Notation "'await' x <- c ;; k" := (bindIO c (fun x => k))
  (at level 61, x name, c at next level, right associativity).

(** A synchronous call that may throw, inside an [async] method. *)
Definition lift {A : Type} (r : result A) : IO A :=
  match r with
  | OK a => ret a
  | Throw e => throw e
  end.

(** The requests a computation sends when started with none sent, and its
    outcome. *)
Definition requests {A : Type} (c : IO A) : list Request := fst (c []).

Definition outcome {A : Type} (c : IO A) : result A := snd (c []).

(** A template literal placeholder holding a string or [undefined]. *)
Definition template (o : option string) : string :=
  match o with
  | Some s => s
  | None => "undefined"
  end.

(** [resourceType === 'file'] and the like. *)
Definition strictEq (o : option string) (s : string) : bool :=
  match o with
  | Some s' => String.eqb s' s
  | None => false
  end.

(** The body of the answer to [/me/files]. *)
Record FileListing : Type := mkFileListing {
  files : list FigmaFile.t
}.

(** *** What [read] and [search] need

    [transformFigmaDocument] of utils/transform.ts, the library calls of
    [read] ([split], [join], [Object.entries]) and the unit [read]
    returns. *)

Module TransformedDocument.
Record t : Type := mk {
  name : value;
  version : value;
  lastModified : value;
  thumbnailUrl : value;
  document : MinimalFigmaNode
}.
End TransformedDocument.

(** [document.name] throws on [null] and [undefined]; the four fields are
    copied unchecked. *)
Definition transformFigmaDocument (document : value)
  : result TransformedDocument.t :=
  if nullish document then Throw TypeError
  else
    node <- transformFigmaNode (get document "document") ;;
    OK (TransformedDocument.mk (get document "name") (get document "version")
                               (get document "lastModified")
                               (get document "thumbnailUrl") node).

(** The transformed document as the value handed to [JSON.stringify]. *)
Definition documentValue (d : TransformedDocument.t) : value :=
  Obj [("name", TransformedDocument.name d);
       ("version", TransformedDocument.version d);
       ("lastModified", TransformedDocument.lastModified d);
       ("thumbnailUrl", TransformedDocument.thumbnailUrl d);
       ("document", nodeValue (TransformedDocument.document d))].

(** [v.key] where [v] may be [null] or [undefined]. *)
Definition getProp (v : value) (key : string) : result value :=
  if nullish v then Throw TypeError else OK (get v key).

(** [s.split(sep)] for a separator of one unit: never an empty array. *)
Fixpoint split (sep : ascii) (s : string) : list string :=
  match s with
  | "" => [""]
  | String ch s' =>
      if Ascii.eqb ch sep then "" :: split sep s'
      else match split sep s' with
           | [] => [String ch ""]
           | piece :: pieces => String ch piece :: pieces
           end
  end.

(** [pieces.join(sep)] *)
Fixpoint join (sep : string) (pieces : list string) : string :=
  match pieces with
  | [] => ""
  | [piece] => piece
  | piece :: rest => piece ++ sep ++ join sep rest
  end.

(** The index [i] as a property name. *)
Definition indexName (i : nat) : string :=
  NilEmpty.string_of_uint (Nat.to_uint i).

Fixpoint indexed {A : Type} (inj : A -> value) (i : nat) (l : list A)
  : list (string * value) :=
  match l with
  | [] => []
  | a :: l' => (indexName i, inj a) :: indexed inj (S i) l'
  end.

(** The own properties of an object, each key once: the first binding of a
    key is the property (see [get]). *)
Fixpoint ownProperties (props : list (string * value)) : list (string * value) :=
  match props with
  | [] => []
  | (k, x) :: rest =>
      (k, x) :: filter (fun kv => negb (String.eqb (fst kv) k)) (ownProperties rest)
  end.

(** A property name that is an array index (the decimal form of an integer
    below 2^32 - 1, without leading zeros), and its value. *)
Definition arrayIndex (key : string) : option N :=
  match NilEmpty.uint_of_string key with
  | Some d =>
      let n := N.of_uint d in
      if String.eqb (NilEmpty.string_of_uint (N.to_uint n)) key && (n <? 4294967295)%N
      then Some n
      else None
  | None => None
  end.

Fixpoint insertIndexed (n : N) (kv : string * value) (l : list (N * (string * value)))
  : list (N * (string * value)) :=
  match l with
  | [] => [(n, kv)]
  | (n', kv') :: l' =>
      if (n <? n')%N then (n, kv) :: l else (n', kv') :: insertIndexed n kv l'
  end.

(** The order in which the engine enumerates the properties of an object:
    the array indices first, ascending, then the other names in the order
    of insertion. *)
Fixpoint enumerate (props : list (string * value))
  : list (N * (string * value)) * list (string * value) :=
  match props with
  | [] => ([], [])
  | (k, x) :: rest =>
      let (indices, names) := enumerate rest in
      match arrayIndex k with
      | Some n => (insertIndexed n (k, x) indices, names)
      | None => (indices, (k, x) :: names)
      end
  end.

Definition enumerated (props : list (string * value)) : list (string * value) :=
  let (indices, names) := enumerate (ownProperties props) in
  (map snd indices ++ names)%list.

(** [Object.entries(v)]: the properties of an object, the elements of an
    array and the units of a string under their indices, nothing for a
    number or a boolean; it throws on [null] and [undefined]. *)
Definition entries (v : value) : result (list (string * value)) :=
  match v with
  | Undefined | Null => Throw TypeError
  | Bool _ | Num _ => OK []
  | Str s => OK (indexed (fun ch => Str (String ch "")) 0 (list_ascii_of_string s))
  | Arr items => OK (indexed (fun x => x) 0 items)
  | Obj props => OK (enumerated props)
  end.

(** [!s] for a string or [undefined]. *)
Definition falsy (o : option string) : bool :=
  match o with
  | None | Some "" => true
  | Some (String _ _) => false
  end.

Module ResourceContents.
Record t : Type := mk {
  uri : string;
  mimeType : string;
  text : string
}.
End ResourceContents.

Module FigmaResourceHandler.

Definition baseUrl : string := "https://api.figma.com/v1".

Section Handler.

(** [A] is the shape the caller expects of the body (the method returns
    [Promise<any>]); [upstream] is the remote service. *)
Context {A : Type}.
Variable token : string.
Variable upstream : string -> Response A.

Definition fetch (url : string) : IO (Response A) :=
  fun sent => ((sent ++ [mkRequest url token])%list, OK (upstream url)).

Definition figmaRequest (path : string) : IO A :=
  await response <- fetch (baseUrl ++ path) ;;
  if negb (ok response) then
    if (status response =? 404)%N then
      throw (ResourceNotFoundError "Figma resource not found")
    else if (status response =? 403)%N then
      throw (ResourceAccessDeniedError "Access to Figma resource denied")
    else throw (Error ("Figma API error: " ++ statusText response))
  else ret (json response).

(** The [log] call only writes a debug line. *)
Definition watch (uri : string) : IO unit :=
  await address <- lift (validateUri uri) ;;
  if strictEq (resourceType address) "file" then
    await _ <- figmaRequest ("/files/" ++ template (fileKey address)) ;;
    ret tt
  else ret tt.

End Handler.

(** [JSON.stringify(payload, null, 2)] is a library call; [read] is
    modelled over any such function [stringify]. *)
Section Read.

Variable stringify : value -> string.
Variable token : string.
Variable upstream : string -> Response value.

(** The one unit every branch of [read] returns. *)
Definition contents (uri : string) (payload : value)
  : IO (Datatypes.list ResourceContents.t) :=
  ret [ResourceContents.mk uri "application/json" (stringify payload)].

(** [Object.fromEntries(Object.entries(nodes.nodes).map(...))] *)
Definition transformNodes (nodes : value) : result value :=
  container <- getProp nodes "nodes" ;;
  pairs <- entries container ;;
  transformed <- mapM (fun kv : string * value =>
                         node <- transformFigmaNode (snd kv) ;;
                         OK (fst kv, nodeValue node)) pairs ;;
  OK (Obj transformed).

(** The cases of the [switch] that fetch a collection and pass it on. *)
Definition passThrough (uri path : string) : IO (Datatypes.list ResourceContents.t) :=
  await payload <- figmaRequest token upstream path ;;
  contents uri payload.

Definition read (uri : string) : IO (Datatypes.list ResourceContents.t) :=
  await address <- lift (validateUri uri) ;;
  let fileKey := template (fileKey address) in
  if falsy (resourceType address) then
    await file <- figmaRequest token upstream ("/files/" ++ fileKey) ;;
    await transformedFile <- lift (transformFigmaDocument file) ;;
    contents uri (documentValue transformedFile)
  else
    let resourceType := template (resourceType address) in
    if String.eqb resourceType "nodes" then
      let nodeIds := match resourceId address with
                     | Some ids => split "," ids
                     | None => []
                     end in
      await nodes <- figmaRequest token upstream
                       ("/files/" ++ fileKey ++ "/nodes?ids=" ++ join "," nodeIds) ;;
      await transformedNodes <- lift (transformNodes nodes) ;;
      contents uri (Obj [("nodes", transformedNodes)])
    else if String.eqb resourceType "images" then
      passThrough uri ("/files/" ++ fileKey ++ "/images")
    else if String.eqb resourceType "comments" then
      passThrough uri ("/files/" ++ fileKey ++ "/comments")
    else if String.eqb resourceType "versions" then
      passThrough uri ("/files/" ++ fileKey ++ "/versions")
    else if String.eqb resourceType "components" then
      passThrough uri ("/files/" ++ fileKey ++ "/components")
    else if String.eqb resourceType "styles" then
      passThrough uri ("/files/" ++ fileKey ++ "/styles")
    else if String.eqb resourceType "variables" then
      passThrough uri ("/files/" ++ fileKey ++ "/variables/local")
    else throw (Error ("Unsupported resource type: " ++ resourceType)).

End Read.

(** [encodeURIComponent] is a library call; [search] is modelled over any
    such function.  The [log] call only writes a debug line. *)
Definition search (encodeURIComponent : string -> string) (token : string)
           (upstream : string -> Response FileListing) (query : string)
  : IO (Datatypes.list FigmaResource.t) :=
  await searchResults <-
    figmaRequest token upstream ("/search?query=" ++ encodeURIComponent query) ;;
  ret (map (fun file =>
              FigmaResource.mk
                ("figma:///file/" ++ FigmaFile.key file)
                FigmaResourceType.file
                (FigmaFile.name file)
                [("lastModified", FigmaFile.lastModified file);
                 ("thumbnailUrl", FigmaFile.thumbnailUrl file)])
           (files searchResults)).

Definition mainResource (file : FigmaFile.t) : FigmaResource.t :=
  FigmaResource.mk
    ("figma:///file/" ++ FigmaFile.key file)
    FigmaResourceType.file
    (FigmaFile.name file)
    [("lastModified", FigmaFile.lastModified file);
     ("thumbnailUrl", FigmaFile.thumbnailUrl file)].

Definition subResource (file : FigmaFile.t) (type : FigmaResourceType.t)
  : FigmaResource.t :=
  FigmaResource.mk
    ("figma:///file/" ++ FigmaFile.key file ++ "/" ++ FigmaResourceType.toString type)
    type
    (FigmaFile.name file ++ " - " ++ FigmaResourceType.toString type)
    [("fileKey", FigmaFile.key file); ("fileName", FigmaFile.name file)].

Definition subResources : Datatypes.list FigmaResourceType.t :=
  [FigmaResourceType.images; FigmaResourceType.comments;
   FigmaResourceType.versions; FigmaResourceType.components;
   FigmaResourceType.styles; FigmaResourceType.variables].

(** [resources.push(r)] *)
Definition push {B : Type} (resources : Datatypes.list B) (r : B) : Datatypes.list B :=
  (resources ++ [r])%list.

Definition list (token : string) (upstream : string -> Response FileListing)
  : IO (Datatypes.list FigmaResource.t) :=
  await listing <- figmaRequest token upstream "/me/files" ;;
  ret (fold_left
         (fun resources file =>
            fold_left (fun resources type => push resources (subResource file type))
                      subResources
                      (push resources (mainResource file)))
         (files listing) []).

End FigmaResourceHandler.

(** ** Auxiliary notions

    What the statements below are phrased with. *)

Fixpoint allChars (cls : ascii -> bool) (s : string) : bool :=
  match s with
  | "" => true
  | String ch s' => cls ch && allChars cls s'
  end.

(** One or more characters of a class. *)
Definition isToken (cls : ascii -> bool) (s : string) : bool :=
  negb (String.eqb s "") && allChars cls s.

(** The address grammar
    [scheme "file/" containerKey [ "/" category [ "/" subId ] ]] with the
    containerKey one or more word or hyphen characters, the category one or
    more word characters and the subId one or more units of any kind. *)
Inductive AddressGrammar : string -> ResourceAddress -> Prop :=
| WholeDocument (key : string) :
    isToken RegExp.wordOrHyphen key = true ->
    AddressGrammar ("figma:///file/" ++ key) (mkAddress (Some key) None None)
| Category (key cat : string) :
    isToken RegExp.wordOrHyphen key = true ->
    isToken RegExp.word cat = true ->
    AddressGrammar ("figma:///file/" ++ key ++ "/" ++ cat)
                   (mkAddress (Some key) (Some cat) None)
| SubResource (key cat sub : string) :
    isToken RegExp.wordOrHyphen key = true ->
    isToken RegExp.word cat = true ->
    sub <> "" ->
    AddressGrammar ("figma:///file/" ++ key ++ "/" ++ cat ++ "/" ++ sub)
                   (mkAddress (Some key) (Some cat) (Some sub)).

(** The same grammar as the specification words it: the subId is any
    remaining text, whatever it holds and however short, the empty text
    included. *)
Inductive SpecGrammar : string -> ResourceAddress -> Prop :=
| SpecWholeDocument (key : string) :
    isToken RegExp.wordOrHyphen key = true ->
    SpecGrammar ("figma:///file/" ++ key) (mkAddress (Some key) None None)
| SpecCategory (key cat : string) :
    isToken RegExp.wordOrHyphen key = true ->
    isToken RegExp.word cat = true ->
    SpecGrammar ("figma:///file/" ++ key ++ "/" ++ cat)
                (mkAddress (Some key) (Some cat) None)
| SpecSubResource (key cat sub : string) :
    isToken RegExp.wordOrHyphen key = true ->
    isToken RegExp.word cat = true ->
    SpecGrammar ("figma:///file/" ++ key ++ "/" ++ cat ++ "/" ++ sub)
                (mkAddress (Some key) (Some cat) (Some sub)).

(** The sub-identifier, if there is one, is not empty and holds no line
    terminator. *)
Definition resolvableSubId (a : ResourceAddress) : bool :=
  match resourceId a with
  | Some sub => negb (String.eqb sub "") && allChars RegExp.dot sub
  | None => true
  end.

(** No line terminator in the sub-identifier, if there is one. *)
Definition singleLine (a : ResourceAddress) : bool :=
  match resourceId a with
  | Some sub => allChars RegExp.dot sub
  | None => true
  end.

(** The components of an address put together again with the separators of
    the grammar. *)
Definition assemble (a : ResourceAddress) : string :=
  "figma:///file/" ++ template (fileKey a)
  ++ match resourceType a with
     | None => ""
     | Some cat =>
         "/" ++ cat
         ++ match resourceId a with
            | None => ""
            | Some sub => "/" ++ sub
            end
     end.

(** The longest prefix of [s] in a character class, and what follows it. *)
Fixpoint span (cls : ascii -> bool) (s : string) : string * string :=
  match s with
  | "" => ("", "")
  | String ch s' =>
      if cls ch then let (p, rest) := span cls s' in (String ch p, rest)
      else ("", s)
  end.

(** What follows the longest prefix does not start in the class. *)
Definition stopsAt (cls : ascii -> bool) (rest : string) : bool :=
  match rest with
  | "" => true
  | String ch _ => negb (cls ch)
  end.

(** [uriPattern] read as a deterministic scanner: the prefix, the longest
    run of key characters, then either the end or a slash and the longest
    run of word characters, then either the end or a slash and one or more
    characters up to the end, none of them a line terminator. *)
Definition parseUri (uri : string) : option ResourceAddress :=
  match RegExp.dropPrefix "figma:///file/" uri with
  | None => None
  | Some s1 =>
      match span RegExp.wordOrHyphen s1 with
      | ("", _) => None
      | (key, "") => Some (mkAddress (Some key) None None)
      | (key, String sep s3) =>
          if Ascii.eqb "/" sep then
            match span RegExp.word s3 with
            | ("", _) => None
            | (cat, "") => Some (mkAddress (Some key) (Some cat) None)
            | (cat, String sep' s5) =>
                if Ascii.eqb "/" sep' then
                  match span RegExp.dot s5 with
                  | (String ch sub, "") =>
                      Some (mkAddress (Some key) (Some cat) (Some (String ch sub)))
                  | _ => None
                  end
                else None
            end
          else None
      end
  end.

(** The invariants of a minimal node (data model of the specification):
    a style is never empty and never carries an empty fills array, a text
    sits on a TEXT node only and is a summary, and every child is minimal.
    That a bounding box, a colour or a fill is complete is in their types. *)

Definition isSummary (text : string) : bool :=
  Nat.leb (String.length text) defaultMaxLength
  || (Nat.eqb (String.length text) (defaultMaxLength + 3)
      && String.eqb (String.substring defaultMaxLength 3 text) "...").

Definition styleOk (s : Style.t) : bool :=
  Style.hasKeys s
  && match Style.fills s with
     | Some [] => false
     | _ => true
     end.

Definition textOk (type : value) (characters : option string) : bool :=
  match characters with
  | None => true
  | Some text =>
      match type with
      | Str ty => String.eqb ty "TEXT" && isSummary text
      | _ => false
      end
  end.

Fixpoint isMinimal (n : MinimalFigmaNode) : bool :=
  match n with
  | mkNode _ _ ty _ st text cs =>
      match st with
      | Some s => styleOk s
      | None => true
      end
      && textOk ty text
      && match cs with
         | Some l => forallb isMinimal l
         | None => true
         end
  end.

(** What a fill descriptor contributes to the fills of a style. *)
Definition keptFill (fill : value) : list Fill.t :=
  match get fill "type" with
  | Str ty => [Fill.mk ty (transformColor (get fill "color"))]
  | _ => []
  end.

(** A tree without a [null] or [undefined] node. *)
Fixpoint wellFormed (node : value) : bool :=
  negb (nullish node)
  && getWith (fun c =>
                match c with
                | Arr items => forallb wellFormed items
                | _ => true
                end) "children" node.

(** An optional field read back: an absent property reads [undefined]. *)
Definition optValue {A : Type} (inj : A -> value) (o : option A) : value :=
  match o with
  | Some a => inj a
  | None => Undefined
  end.

(** The entries of one file, in the order [list] pushes them. *)
Definition fileResources (file : FigmaFile.t) : list FigmaResource.t :=
  FigmaResourceHandler.mainResource file
  :: map (FigmaResourceHandler.subResource file) FigmaResourceHandler.subResources.

(** The category an entry of a given type stands for; the entry of the
    whole document has none. *)
Definition categoryOf (type : FigmaResourceType.t) : option string :=
  match type with
  | FigmaResourceType.file => None
  | _ => Some (FigmaResourceType.toString type)
  end.

(** The node found in a raw tree, and in a transformed tree, by going down
    the [children] arrays along a path of positions. *)
Fixpoint rawAt (path : list nat) (node : value) : option value :=
  match path with
  | [] => Some node
  | i :: rest =>
      match get node "children" with
      | Arr items =>
          match nth_error items i with
          | Some child => rawAt rest child
          | None => None
          end
      | _ => None
      end
  end.

Fixpoint nodeAt (path : list nat) (n : MinimalFigmaNode) : option MinimalFigmaNode :=
  match path with
  | [] => Some n
  | i :: rest =>
      match children n with
      | Some cs =>
          match nth_error cs i with
          | Some child => nodeAt rest child
          | None => None
          end
      | None => None
      end
  end.

(** The properties of a raw node that [transformFigmaNode] reads. *)
Definition nodeKeys : list string :=
  ["id"; "name"; "type"; "absoluteBoundingBox"; "style"; "characters"; "children"].

(** The categories [read] has a case for. *)
Definition readCategories : list string :=
  ["nodes"; "images"; "comments"; "versions"; "components"; "styles"; "variables"].

(** The path [read] requests for an entry of the listing. *)
Definition entryPath (key : string) (type : FigmaResourceType.t) : string :=
  match type with
  | FigmaResourceType.file => "/files/" ++ key
  | FigmaResourceType.variables => "/files/" ++ key ++ "/variables/local"
  | _ => "/files/" ++ key ++ "/" ++ FigmaResourceType.toString type
  end.

(** What [figmaRequest] makes of an answer of the remote service. *)
Definition settle {A : Type} (response : Response A) : result A :=
  if negb (ok response) then
    if (status response =? 404)%N then
      Throw (ResourceNotFoundError "Figma resource not found")
    else if (status response =? 403)%N then
      Throw (ResourceAccessDeniedError "Access to Figma resource denied")
    else Throw (Error ("Figma API error: " ++ statusText response))
  else OK (json response).

(** The request [figmaRequest] sends for a path. *)
Definition requestOf (token path : string) : Request :=
  mkRequest (FigmaResourceHandler.baseUrl ++ path) token.

(** What [read] does once the identifier is resolved: the path it requests
    and what it makes of the body before serializing it, or nothing when it
    has no case for the category. *)
Definition readPlan (a : ResourceAddress)
  : option (string * (value -> result value)) :=
  let key := template (fileKey a) in
  let collection := fun segment : string =>
    Some ("/files/" ++ key ++ segment, fun body : value => OK body) in
  if falsy (resourceType a) then
    Some ("/files/" ++ key,
          fun file => d <- transformFigmaDocument file ;; OK (documentValue d))
  else
    let cat := template (resourceType a) in
    if String.eqb cat "nodes" then
      Some ("/files/" ++ key ++ "/nodes?ids="
            ++ join "," match resourceId a with
                        | Some ids => split "," ids
                        | None => []
                        end,
            fun nodes =>
              transformed <- FigmaResourceHandler.transformNodes nodes ;;
              OK (Obj [("nodes", transformed)]))
    else if String.eqb cat "images" then collection "/images"
    else if String.eqb cat "comments" then collection "/comments"
    else if String.eqb cat "versions" then collection "/versions"
    else if String.eqb cat "components" then collection "/components"
    else if String.eqb cat "styles" then collection "/styles"
    else if String.eqb cat "variables" then collection "/variables/local"
    else None.

(** ** Induction over nested trees *)

Section ValueInd.

Variable P : value -> Prop.
Hypothesis HUndefined : P Undefined.
Hypothesis HNull : P Null.
Hypothesis HBool : forall b, P (Bool b).
Hypothesis HNum : forall n, P (Num n).
Hypothesis HStr : forall s, P (Str s).
Hypothesis HArr : forall items, Forall P items -> P (Arr items).
Hypothesis HObj : forall props, Forall (fun kv => P (snd kv)) props -> P (Obj props).

Fixpoint value_nested_ind (v : value) : P v :=
  match v with
  | Undefined => HUndefined
  | Null => HNull
  | Bool b => HBool b
  | Num n => HNum n
  | Str s => HStr s
  | Arr items =>
      HArr items
        ((fix all (l : list value) : Forall P l :=
            match l with
            | [] => Forall_nil P
            | x :: l' => Forall_cons x (value_nested_ind x) (all l')
            end) items)
  | Obj props =>
      HObj props
        ((fix all (l : list (string * value)) : Forall (fun kv => P (snd kv)) l :=
            match l with
            | [] => Forall_nil _
            | (k, x) :: l' =>
                Forall_cons (P := fun kv => P (snd kv)) (k, x)
                            (value_nested_ind x) (all l')
            end) props)
  end.

End ValueInd.

Section NodeInd.

Variable P : MinimalFigmaNode -> Prop.
Hypothesis HLeaf : forall i n ty box st text, P (mkNode i n ty box st text None).
Hypothesis HInner : forall i n ty box st text cs,
    Forall P cs -> P (mkNode i n ty box st text (Some cs)).

Fixpoint node_nested_ind (n : MinimalFigmaNode) : P n :=
  match n with
  | mkNode i nm ty box st text None => HLeaf i nm ty box st text
  | mkNode i nm ty box st text (Some cs) =>
      HInner i nm ty box st text cs
        ((fix all (l : list MinimalFigmaNode) : Forall P l :=
            match l with
            | [] => Forall_nil P
            | x :: l' => Forall_cons x (node_nested_ind x) (all l')
            end) cs)
  end.

End NodeInd.

(** * Properties *)

Import RegExp.

Module StringFacts.

Lemma length_append (s1 s2 : string) :
  String.length (s1 ++ s2) = String.length s1 + String.length s2.
Proof. induction s1 as [|ch s1 IH]; simpl; [reflexivity | now rewrite IH]. Qed.

Lemma append_empty_r (s : string) : s ++ "" = s.
Proof. induction s as [|ch s IH]; simpl; [reflexivity | now rewrite IH]. Qed.

Lemma substring_0_0 (s : string) : String.substring 0 0 s = "".
Proof. destruct s; reflexivity. Qed.

Lemma substring_prefix (p rest : string) :
  String.substring 0 (String.length p) (p ++ rest) = p.
Proof.
  induction p as [|ch p IH]; simpl.
  - apply substring_0_0.
  - now rewrite IH.
Qed.

Lemma substring_length (n : nat) (s : string) :
  n <= String.length s -> String.length (String.substring 0 n s) = n.
Proof.
  revert s; induction n as [|n IH]; intros s Hn.
  - now rewrite substring_0_0.
  - destruct s as [|ch s]; simpl in *; [lia|].
    rewrite IH; [reflexivity | lia].
Qed.

End StringFacts.

Import StringFacts.

Module RegExpFacts.

Lemma consumed_app (p rest : string) : consumed (p ++ rest) rest = p.
Proof.
  unfold consumed. rewrite length_append.
  replace (String.length p + String.length rest - String.length rest)
    with (String.length p) by lia.
  apply substring_prefix.
Qed.

Lemma span_app (cls : ascii -> bool) (s : string) :
  fst (span cls s) ++ snd (span cls s) = s.
Proof.
  induction s as [|ch s IH]; simpl; [reflexivity|].
  destruct (cls ch); [|reflexivity].
  destruct (span cls s) as [p rest]; simpl in *. now rewrite IH.
Qed.

Lemma span_all (cls : ascii -> bool) (s : string) :
  allChars cls (fst (span cls s)) = true.
Proof.
  induction s as [|ch s IH]; simpl; [reflexivity|].
  destruct (cls ch) eqn:Hch; [|reflexivity].
  destruct (span cls s) as [p rest]; simpl in *. now rewrite Hch.
Qed.

Lemma span_stops (cls : ascii -> bool) (s : string) :
  stopsAt cls (snd (span cls s)) = true.
Proof.
  induction s as [|ch s IH]; simpl; [reflexivity|].
  destruct (cls ch) eqn:Hch.
  - destruct (span cls s) as [p rest]; exact IH.
  - simpl. now rewrite Hch.
Qed.

Lemma span_unique (cls : ascii -> bool) (p rest : string) :
  allChars cls p = true -> stopsAt cls rest = true ->
  span cls (p ++ rest) = (p, rest).
Proof.
  intros Hp Hrest. induction p as [|ch p IH]; simpl in *.
  - destruct rest as [|ch rest]; simpl in *; [reflexivity|].
    now destruct (cls ch).
  - apply andb_true_iff in Hp as [Hch Hp]. rewrite Hch, (IH Hp). reflexivity.
Qed.

(** A greedy [c+] whose continuation cannot resume in front of a
    character of the class takes the longest prefix or fails. *)
Lemma run_Plus (input : string) (cls : ascii -> bool) (s : string)
      (c : captures) (k : cont) :
  (forall ch s' c', cls ch = true -> k (String ch s') c' = None) ->
  run input (Plus cls) s c k =
    match fst (span cls s) with
    | "" => None
    | String _ _ => k (snd (span cls s)) c
    end.
Proof.
  intros Hk. induction s as [|ch s IH]; [reflexivity|].
  simpl in *. destruct (cls ch) eqn:Hch; [|reflexivity].
  rewrite IH. clear IH.
  destruct (span cls s) as [p rest] eqn:Hspan; simpl.
  destruct p as [|ch' p].
  - destruct s as [|ch2 s]; simpl in Hspan.
    + now inversion Hspan.
    + destruct (cls ch2); [destruct (span cls s); discriminate|].
      now inversion Hspan.
  - destruct (k rest c) eqn:Hrest; [reflexivity|].
    destruct s as [|ch2 s]; simpl in Hspan; [discriminate|].
    destruct (cls ch2) eqn:Hch2; [|discriminate].
    now apply Hk.
Qed.

End RegExpFacts.

Import RegExpFacts.

Module ValidateUriFacts.

Lemma run_Group_Plus (input : string) (n : nat) (cls : ascii -> bool)
      (s : string) (c : captures) (k : cont) :
  (forall ch s' c', cls ch = true -> k (String ch s') c' = None) ->
  run input (Group n (Plus cls)) s c k =
    match span cls s with
    | ("", _) => None
    | (p, rest) => k rest (setGroup n p c)
    end.
Proof.
  intros Hk. cbn [run]. fold (run input (Plus cls) s c
    (fun s' c' => k s' (setGroup n (consumed s s') c'))).
  rewrite run_Plus by (intros; now apply Hk).
  pose proof (span_app cls s) as Happ.
  destruct (span cls s) as [p rest]; simpl in *.
  destruct p as [|ch p]; [reflexivity|].
  rewrite <- Happ at 1. now rewrite (consumed_app (String ch p) rest).
Qed.

Lemma execFrom_Bol_late (input : string) (r : t) (s : string) :
  String.length s < String.length input ->
  execFrom input (Seq Bol r) s = None.
Proof.
  induction s as [|ch s IH]; intros Hlen; cbn [execFrom run].
  - destruct (Nat.eqb_spec (String.length "") (String.length input)); [lia|reflexivity].
  - destruct (Nat.eqb_spec (String.length (String ch s)) (String.length input)); [lia|].
    apply IH. simpl in Hlen. lia.
Qed.

(** A pattern that starts with [^] matches at the first position or not
    at all. *)
Lemma exec_Bol (r : t) (input : string) :
  exec (Seq Bol r) input =
    run input r input noCaptures
        (fun s' c => Some (setGroup 0 (consumed input s') c)).
Proof.
  unfold exec. destruct input as [|ch s]; cbn [execFrom run].
  - simpl Nat.eqb. now destruct (run "" r "" noCaptures _).
  - rewrite Nat.eqb_refl.
    destruct (run (String ch s) r (String ch s) noCaptures _); [reflexivity|].
    apply execFrom_Bol_late. simpl. lia.
Qed.

Lemma wordOrHyphen_not_slash (ch : ascii) :
  wordOrHyphen ch = true -> Ascii.eqb "/" ch = false.
Proof.
  intros H. destruct (Ascii.eqb_spec "/" ch) as [<-|]; [discriminate H|reflexivity].
Qed.

Lemma word_not_slash (ch : ascii) :
  word ch = true -> Ascii.eqb "/" ch = false.
Proof.
  intros H. destruct (Ascii.eqb_spec "/" ch) as [<-|]; [discriminate H|reflexivity].
Qed.

Lemma run_Seq input r1 r2 s c k :
  run input (Seq r1 r2) s c k = run input r1 s c (fun s' c' => run input r2 s' c' k).
Proof. reflexivity. Qed.

Lemma run_Lit input l s c k :
  run input (Lit l) s c k =
    match dropPrefix l s with
    | Some s' => k s' c
    | None => None
    end.
Proof. reflexivity. Qed.

Lemma run_Opt input r s c k :
  run input (Opt r) s c k =
    match run input r s c k with
    | Some c' => Some c'
    | None => k s c
    end.
Proof. reflexivity. Qed.

Lemma run_Group input n r s c k :
  run input (Group n r) s c k =
    run input r s c (fun s' c' => k s' (setGroup n (consumed s s') c')).
Proof. reflexivity. Qed.

Lemma run_Eol input s c k :
  run input Eol s c k =
    match s with
    | "" => k s c
    | String _ _ => None
    end.
Proof. reflexivity. Qed.

Theorem validateUri_parseUri (uri : string) :
  validateUri uri =
    match parseUri uri with
    | Some a => OK a
    | None => Throw (InvalidUriError uri)
    end.
Proof.
  unfold validateUri, uriPattern, parseUri. rewrite exec_Bol.
  rewrite run_Seq, run_Lit.
  destruct (dropPrefix "figma:///file/" uri) as [s1|]; [|reflexivity].
  rewrite run_Seq, run_Group_Plus.
  2:{ intros ch s' c' Hch. rewrite run_Seq, run_Opt, run_Group, run_Seq, run_Lit.
      cbn [dropPrefix]. rewrite (wordOrHyphen_not_slash ch Hch). reflexivity. }
  destruct (span wordOrHyphen s1) as [key s2].
  destruct key as [|k0 key]; [reflexivity|].
  rewrite run_Seq, run_Opt, run_Group, run_Seq, run_Lit.
  destruct s2 as [|sep s3]; [reflexivity|].
  cbn [dropPrefix].
  destruct (Ascii.eqb "/" sep); [|reflexivity].
  rewrite run_Seq, run_Group_Plus.
  2:{ intros ch s' c' Hch. rewrite run_Opt, run_Group, run_Seq, run_Lit.
      cbn [dropPrefix]. rewrite (word_not_slash ch Hch). reflexivity. }
  destruct (span word s3) as [cat s4].
  destruct cat as [|c0 cat]; [reflexivity|].
  rewrite run_Opt, run_Group, run_Seq, run_Lit.
  destruct s4 as [|sep' s5]; [reflexivity|].
  cbn [dropPrefix].
  destruct (Ascii.eqb "/" sep'); [|reflexivity].
  rewrite run_Group_Plus.
  2:{ intros ch s' c' Hch. reflexivity. }
  destruct (span dot s5) as [sub s6].
  destruct sub as [|d0 sub]; [reflexivity|].
  destruct s6 as [|x s6]; reflexivity.
Qed.

End ValidateUriFacts.

Import ValidateUriFacts.

Module GrammarFacts.

Lemma dropPrefix_app (p rest : string) : dropPrefix p (p ++ rest) = Some rest.
Proof.
  induction p as [|ch p IH]; simpl; [reflexivity|].
  now rewrite Ascii.eqb_refl.
Qed.

Lemma dropPrefix_Some (p s rest : string) :
  dropPrefix p s = Some rest -> s = p ++ rest.
Proof.
  revert s; induction p as [|ch p IH]; simpl; intros s H.
  - now inversion H.
  - destruct s as [|ch' s]; [discriminate|].
    destruct (Ascii.eqb_spec ch ch') as [<-|]; [|discriminate].
    now rewrite (IH s H).
Qed.

Lemma isToken_cons (cls : ascii -> bool) (ch : ascii) (s : string) :
  allChars cls (String ch s) = true -> isToken cls (String ch s) = true.
Proof. intros H. unfold isToken. now rewrite H. Qed.

Lemma isToken_inv (cls : ascii -> bool) (s : string) :
  isToken cls s = true ->
  allChars cls s = true /\ exists ch s', s = String ch s'.
Proof.
  unfold isToken. intros H. apply andb_true_iff in H as [Hne Hall].
  split; [exact Hall|]. destruct s as [|ch s']; [discriminate|]. now exists ch, s'.
Qed.

(** The match succeeds on exactly the addresses of the grammar whose
    sub-identifier has no line terminator. *)
Lemma parseUri_sound (uri : string) (a : ResourceAddress) :
  parseUri uri = Some a -> AddressGrammar uri a /\ singleLine a = true.
Proof.
  unfold parseUri.
  destruct (dropPrefix "figma:///file/" uri) as [s1|] eqn:Hpre; [|discriminate].
  apply dropPrefix_Some in Hpre. subst uri.
  pose proof (span_app wordOrHyphen s1) as Happ1.
  pose proof (span_all wordOrHyphen s1) as Hall1.
  destruct (span wordOrHyphen s1) as [key s2]; simpl in Happ1, Hall1.
  destruct key as [|k0 key]; [discriminate|].
  apply isToken_cons in Hall1.
  destruct s2 as [|sep s3].
  { intros [= <-]. rewrite append_empty_r in Happ1. subst s1.
    split; [now constructor | reflexivity]. }
  destruct (Ascii.eqb_spec "/" sep) as [<-|]; [|discriminate].
  pose proof (span_app word s3) as Happ3.
  pose proof (span_all word s3) as Hall3.
  destruct (span word s3) as [cat s4]; simpl in Happ3, Hall3.
  destruct cat as [|c0 cat]; [discriminate|].
  apply isToken_cons in Hall3.
  destruct s4 as [|sep' s5].
  { intros [= <-]. rewrite append_empty_r in Happ3. subst s3 s1.
    split; [|reflexivity].
    now apply (Category (String k0 key) (String c0 cat)). }
  destruct (Ascii.eqb_spec "/" sep') as [<-|]; [|discriminate].
  pose proof (span_app dot s5) as Happ5.
  pose proof (span_all dot s5) as Hall5.
  destruct (span dot s5) as [sub s6]; simpl in Happ5, Hall5.
  destruct sub as [|d0 sub]; [discriminate|].
  destruct s6 as [|x s6]; [|discriminate].
  intros [= <-]. rewrite append_empty_r in Happ5. subst s5 s3 s1.
  split; [|exact Hall5].
  now apply (SubResource (String k0 key) (String c0 cat) (String d0 sub)).
Qed.

Lemma parseUri_complete (uri : string) (a : ResourceAddress) :
  AddressGrammar uri a -> singleLine a = true -> parseUri uri = Some a.
Proof.
  intros Hg Hline. unfold parseUri.
  destruct Hg as [key Hkey | key cat Hkey Hcat | key cat sub Hkey Hcat Hsub];
    rewrite dropPrefix_app;
    apply isToken_inv in Hkey as [Hkey (k0 & key' & ->)].
  - rewrite <- (append_empty_r (String k0 key')) at 1.
    rewrite span_unique by (assumption || reflexivity). reflexivity.
  - apply isToken_inv in Hcat as [Hcat (c0 & cat' & ->)].
    rewrite span_unique by (assumption || reflexivity).
    cbn [append]. rewrite Ascii.eqb_refl.
    rewrite <- (append_empty_r (String c0 cat')) at 1.
    rewrite span_unique by (assumption || reflexivity). reflexivity.
  - apply isToken_inv in Hcat as [Hcat (c0 & cat' & ->)].
    rewrite span_unique by (assumption || reflexivity).
    cbn [append]. rewrite Ascii.eqb_refl.
    change (String c0 (cat' ++ String "/" sub))
      with (String c0 cat' ++ String "/" sub).
    rewrite span_unique by (assumption || reflexivity).
    rewrite Ascii.eqb_refl.
    unfold singleLine in Hline; simpl in Hline.
    rewrite <- (append_empty_r sub) at 1.
    rewrite span_unique by (assumption || reflexivity).
    destruct sub as [|d0 sub']; [contradiction|reflexivity].
Qed.

Lemma validateUri_OK_iff (uri : string) (a : ResourceAddress) :
  validateUri uri = OK a <-> AddressGrammar uri a /\ singleLine a = true.
Proof.
  rewrite validateUri_parseUri. split.
  - destruct (parseUri uri) as [a'|] eqn:Hp; [|discriminate].
    intros [= <-]. now apply parseUri_sound.
  - intros [Hg Hl]. now rewrite (parseUri_complete uri a Hg Hl).
Qed.

Lemma validateUri_total (uri : string) :
  (exists a, validateUri uri = OK a) \/ validateUri uri = Throw (InvalidUriError uri).
Proof.
  rewrite validateUri_parseUri. destruct (parseUri uri) as [a|]; eauto.
Qed.

Lemma assemble_grammar (uri : string) (a : ResourceAddress) :
  AddressGrammar uri a -> assemble a = uri.
Proof. intros []; unfold assemble; simpl; now rewrite ?append_empty_r. Qed.

End GrammarFacts.

Import GrammarFacts.

(** ** The URI resolver *)

Example resolve_whole_document :
  validateUri "figma:///file/ABC123" = OK (mkAddress (Some "ABC123") None None).
Proof. reflexivity. Qed.

Example resolve_nodes :
  validateUri "figma:///file/ABC123/nodes/1:2,1:3"
  = OK (mkAddress (Some "ABC123") (Some "nodes") (Some "1:2,1:3")).
Proof. reflexivity. Qed.

Example resolve_unknown_category :
  validateUri "figma:///file/ABC123/widgets"
  = OK (mkAddress (Some "ABC123") (Some "widgets") None).
Proof. reflexivity. Qed.

Example reject_missing_scheme :
  validateUri "/file/ABC123" = Throw (InvalidUriError "/file/ABC123").
Proof. reflexivity. Qed.

Example reject_missing_file_segment :
  validateUri "figma:///ABC123" = Throw (InvalidUriError "figma:///ABC123").
Proof. reflexivity. Qed.

Example reject_empty_key :
  validateUri "figma:///file/" = Throw (InvalidUriError "figma:///file/").
Proof. reflexivity. Qed.

Example reject_partial_match :
  validateUri "see figma:///file/ABC123"
  = Throw (InvalidUriError "see figma:///file/ABC123")
  /\ validateUri "figma:///file/ABC 123"
     = Throw (InvalidUriError "figma:///file/ABC 123").
Proof. split; reflexivity. Qed.

(** C7.  An identifier that no address of the grammar
    [figma:///file/<containerKey>[/<category>[/<subId>]]] spells out (no
    scheme, no [file/] segment, an empty containerKey, a match of only a
    part of the string) makes [validateUri] throw [InvalidUriError]; no
    address, not even a partial one, is returned. *)
Theorem validateUri_rejects_malformed (uri : string) :
  (forall a, ~ AddressGrammar uri a) ->
  validateUri uri = Throw (InvalidUriError uri)
  /\ forall a, validateUri uri <> OK a.
Proof.
  intros Hno.
  assert (H : validateUri uri = Throw (InvalidUriError uri)).
  { destruct (validateUri_total uri) as [[a Ha]|H]; [|exact H].
    apply validateUri_OK_iff in Ha as [Hg _]. now destruct (Hno a). }
  split; [exact H|]. intros a Ha. rewrite H in Ha. discriminate.
Qed.

Lemma validateUri_rejects_malformed_witness :
  (forall a, ~ AddressGrammar "not-a-uri" a)
  /\ validateUri "not-a-uri" = Throw (InvalidUriError "not-a-uri").
Proof.
  assert (H : forall a, ~ AddressGrammar "not-a-uri" a).
  { intros a Hg. inversion Hg; discriminate. }
  split; [exact H|]. exact (proj1 (validateUri_rejects_malformed "not-a-uri" H)).
Defined.

Lemma SpecGrammar_resolvable (uri : string) (a : ResourceAddress) :
  SpecGrammar uri a -> resolvableSubId a = true ->
  AddressGrammar uri a /\ singleLine a = true.
Proof.
  intros Hg Hsub. destruct Hg as [key Hkey | key cat Hkey Hcat | key cat sub Hkey Hcat].
  - split; [now constructor | reflexivity].
  - split; [now constructor | reflexivity].
  - unfold resolvableSubId in Hsub; cbn [resourceId] in Hsub.
    apply andb_true_iff in Hsub as [Hne Hline].
    split; [|exact Hline].
    apply SubResource; [assumption | assumption |].
    intros ->. discriminate Hne.
Qed.

(** C5, as the code has it.  [validateUri] is a function, so it is
    deterministic and has no effect.  On every identifier of the grammar of
    the specification whose sub-identifier, when there is one, is not empty
    and holds no line terminator, it returns the address the identifier
    spells out; putting the components of that address together again
    gives the identifier back, and resolving it gives the same address. *)
Theorem validateUri_round_trip (uri : string) (a : ResourceAddress) :
  SpecGrammar uri a -> resolvableSubId a = true ->
  validateUri uri = OK a
  /\ assemble a = uri
  /\ validateUri (assemble a) = OK a.
Proof.
  intros Hg Hsub. destruct (SpecGrammar_resolvable uri a Hg Hsub) as [Hg' Hl].
  assert (H : validateUri uri = OK a) by (apply validateUri_OK_iff; now split).
  rewrite (assemble_grammar uri a Hg'). now repeat apply conj.
Qed.

Lemma validateUri_round_trip_witness :
  let uri := "figma:///file/ABC123/nodes/1:2,1:3" in
  let a := mkAddress (Some "ABC123") (Some "nodes") (Some "1:2,1:3") in
  SpecGrammar uri a
  /\ validateUri uri = OK a /\ assemble a = uri /\ validateUri (assemble a) = OK a.
Proof.
  intros uri a.
  assert (Hg : SpecGrammar uri a).
  { apply (SpecSubResource "ABC123" "nodes" "1:2,1:3"); reflexivity. }
  split; [exact Hg|]. exact (validateUri_round_trip uri a Hg eq_refl).
Defined.

(** C5, as the specification has it, fails, in two ways.  A sub-identifier
    is any remaining text there, but [.] matches no line terminator and
    [.+] needs at least one unit: an identifier of the grammar with a line
    feed in its sub-identifier is rejected, and so is one whose
    sub-identifier is empty. *)
Lemma validateUri_fails_inside_the_grammar :
  let multiLine := "figma:///file/ABC/nodes/1" ++ String "010" "2" in
  let trailing := "figma:///file/ABC/nodes/" in
  (SpecGrammar multiLine
     (mkAddress (Some "ABC") (Some "nodes") (Some (String "1" (String "010" "2"))))
   /\ validateUri multiLine = Throw (InvalidUriError multiLine))
  /\ (SpecGrammar trailing (mkAddress (Some "ABC") (Some "nodes") (Some ""))
      /\ validateUri trailing = Throw (InvalidUriError trailing)).
Proof.
  split; split.
  - apply (SpecSubResource "ABC" "nodes" (String "1" (String "010" "2"))); reflexivity.
  - reflexivity.
  - apply (SpecSubResource "ABC" "nodes" ""); reflexivity.
  - reflexivity.
Qed.

(** C10.  A valid scheme, [file/] segment, containerKey and category
    followed by a slash and nothing more is rejected as a whole: once the
    separator of the sub-identifier is there, the sub-identifier cannot be
    empty. *)
Theorem validateUri_rejects_trailing_slash (key cat : string) :
  isToken wordOrHyphen key = true -> isToken word cat = true ->
  validateUri ("figma:///file/" ++ key ++ "/" ++ cat ++ "/")
  = Throw (InvalidUriError ("figma:///file/" ++ key ++ "/" ++ cat ++ "/")).
Proof.
  intros Hkey Hcat. rewrite validateUri_parseUri.
  replace (parseUri ("figma:///file/" ++ key ++ "/" ++ cat ++ "/")) with (@None ResourceAddress);
    [reflexivity|].
  unfold parseUri. rewrite dropPrefix_app.
  apply isToken_inv in Hkey as [Hkey (k0 & key' & ->)].
  apply isToken_inv in Hcat as [Hcat (c0 & cat' & ->)].
  rewrite span_unique by (assumption || reflexivity).
  cbn [append]. rewrite Ascii.eqb_refl.
  change (String c0 (cat' ++ String "/" "")) with (String c0 cat' ++ String "/" "").
  rewrite span_unique by (assumption || reflexivity).
  reflexivity.
Qed.

Lemma validateUri_rejects_trailing_slash_witness :
  validateUri "figma:///file/ABC/nodes/"
  = Throw (InvalidUriError "figma:///file/ABC/nodes/").
Proof.
  exact (validateUri_rejects_trailing_slash "ABC" "nodes" eq_refl eq_refl).
Defined.

(** ** The document normalizer *)

Module TransformFacts.

Lemma getWith_get {A : Type} (f : value -> A) (key : string) (v : value) :
  getWith f key v = f (get v key).
Proof.
  destruct v as [| | | | | |props]; try reflexivity.
  unfold get; simpl. induction props as [|[k x] props IH]; [reflexivity|].
  destruct (String.eqb k key); [reflexivity | exact IH].
Qed.

(** The body of [transformFigmaNode], one call unfolded. *)
Lemma transformFigmaNode_eq (node : value) :
  transformFigmaNode node =
    if nullish node then Throw TypeError
    else
      children <- transformChildren (get node "children") ;;
      OK (mkNode (get node "id") (get node "name") (get node "type")
                 (transformBoundingBox (get node "absoluteBoundingBox"))
                 (transformStyle (get node "style"))
                 (transformCharacters (get node "type") (get node "characters"))
                 children).
Proof.
  destruct node; try reflexivity.
  cbn [transformFigmaNode nullish]. now rewrite getWith_get.
Qed.

Lemma wellFormed_eq (node : value) :
  wellFormed node =
    negb (nullish node)
    && match get node "children" with
       | Arr items => forallb wellFormed items
       | _ => true
       end.
Proof.
  destruct node; try reflexivity.
  cbn [wellFormed nullish]. now rewrite getWith_get.
Qed.

Lemma get_Forall (P : value -> Prop) (props : list (string * value)) (key : string) :
  P Undefined -> Forall (fun kv => P (snd kv)) props -> P (get (Obj props) key).
Proof.
  intros HU Hall. unfold get; simpl.
  induction Hall as [|[k x] props Hx _ IH]; [exact HU|].
  destruct (String.eqb k key); [exact Hx | exact IH].
Qed.

(** Induction along the recursive calls of [transformFigmaNode]: the
    elements of the [children] array. *)
Lemma children_ind (Q : value -> Prop) :
  (forall node,
      (forall items, get node "children" = Arr items -> Forall Q items) -> Q node) ->
  forall node, Q node.
Proof.
  intros Hstep.
  assert (H : forall v, Q v /\ forall items, v = Arr items -> Forall Q items).
  { induction v as [| | | | |items IH|props IH] using value_nested_ind.
    1-5: split; [apply Hstep; intros items Hc; discriminate Hc | discriminate].
    - split.
      + apply Hstep; intros items' Hc; discriminate Hc.
      + intros items' [= <-]. eapply Forall_impl; [|exact IH]. now intros x [Hx _].
    - split; [|discriminate]. apply Hstep.
      apply (get_Forall (fun c => forall items', c = Arr items' -> Forall Q items'));
        [discriminate|].
      eapply Forall_impl; [|exact IH]. now intros kv [_ Hkv]. }
  intros node. apply H.
Qed.

Lemma mapM_OK {A B : Type} (f : A -> result B) (l : list A) (bs : list B) :
  mapM f l = OK bs <-> Forall2 (fun a b => f a = OK b) l bs.
Proof.
  revert bs; induction l as [|a l IH]; intros bs; simpl.
  - split; [intros [= <-]; constructor | intros H; now inversion H].
  - split.
    + destruct (f a) as [b|] eqn:Hfa; simpl; [|discriminate].
      destruct (mapM f l) as [bs'|] eqn:Hl; simpl; [|discriminate].
      intros [= <-]. constructor; [exact Hfa | now apply IH].
    + intros H. inversion H as [|? b ? bs' Hfa Hrest]; subst.
      rewrite Hfa; simpl. apply IH in Hrest. fold (mapM f l). now rewrite Hrest.
Qed.

(** [transformFigmaNode] returns on every tree without a [null] or
    [undefined] node. *)
Lemma transformFigmaNode_total (node : value) :
  wellFormed node = true -> exists m, transformFigmaNode node = OK m.
Proof.
  induction node as [node IH] using children_ind.
  rewrite wellFormed_eq, transformFigmaNode_eq.
  intros H. apply andb_true_iff in H as [Hnn Hcs].
  apply negb_true_iff in Hnn. rewrite Hnn.
  assert (Hch : exists cs, transformChildren (get node "children") = OK cs).
  { destruct (get node "children") as [| | | | |items|] eqn:Hget;
      try (now eexists).
    specialize (IH items eq_refl). simpl.
    assert (Hm : exists cs, mapM transformFigmaNode items = OK cs).
    { clear Hget. induction IH as [|x items Hx _ IHitems]; [now eexists|].
      simpl in Hcs. apply andb_true_iff in Hcs as [Hwx Hwitems].
      destruct (Hx Hwx) as [m Hm]. destruct (IHitems Hwitems) as [cs Hcs'].
      exists (m :: cs). simpl. rewrite Hm; simpl.
      fold (mapM transformFigmaNode items). now rewrite Hcs'. }
    destruct Hm as [cs Hm]. rewrite Hm. now eexists. }
  destruct Hch as [cs Hch]. rewrite Hch. now eexists.
Qed.

End TransformFacts.

Import TransformFacts.

Module SummaryFacts.

Lemma substring_split (n : nat) (s : string) :
  n <= String.length s ->
  String.substring 0 n s ++ String.substring n (String.length s - n) s = s.
Proof.
  revert s; induction n as [|n IH]; intros s Hn.
  - rewrite substring_0_0, Nat.sub_0_r. simpl.
    clear Hn. induction s as [|ch s IHs]; simpl; [reflexivity | now rewrite IHs].
  - destruct s as [|ch s]; simpl in *; [lia|]. rewrite IH; [reflexivity | lia].
Qed.

Lemma substring_suffix (p q : string) :
  String.substring (String.length p) (String.length q) (p ++ q) = q.
Proof.
  induction p as [|ch p IH]; simpl; [|exact IH].
  rewrite <- (append_empty_r q) at 2. apply substring_prefix.
Qed.

Lemma summarizeText_short (text : string) (maxLength : nat) :
  String.length text <= maxLength -> summarizeText text maxLength = text.
Proof.
  intros H. unfold summarizeText.
  destruct (Nat.ltb_spec maxLength (String.length text)); [lia | reflexivity].
Qed.

Lemma summarizeText_long (text : string) (maxLength : nat) :
  maxLength < String.length text ->
  summarizeText text maxLength = String.substring 0 maxLength text ++ "..."
  /\ String.length (summarizeText text maxLength) = maxLength + 3.
Proof.
  intros H. unfold summarizeText.
  destruct (Nat.ltb_spec maxLength (String.length text)); [|lia].
  split; [reflexivity|].
  rewrite length_append, substring_length by lia. reflexivity.
Qed.

Lemma isSummary_summarizeText (text : string) :
  isSummary (summarizeText text defaultMaxLength) = true.
Proof.
  unfold isSummary.
  destruct (Nat.le_gt_cases (String.length text) defaultMaxLength) as [Hle|Hgt].
  - rewrite summarizeText_short by exact Hle.
    apply orb_true_iff; left. now apply Nat.leb_le.
  - destruct (summarizeText_long text defaultMaxLength Hgt) as [-> Hlen].
    apply orb_true_iff; right. apply andb_true_iff; split.
    + apply Nat.eqb_eq. rewrite length_append, substring_length by lia. reflexivity.
    + apply String.eqb_eq.
      rewrite <- (substring_length defaultMaxLength text) at 1 by lia.
      apply (substring_suffix _ "...").
Qed.

Lemma summarizeText_isSummary (text : string) :
  isSummary text = true -> summarizeText text defaultMaxLength = text.
Proof.
  unfold isSummary. intros H. apply orb_true_iff in H as [H|H].
  - apply summarizeText_short. now apply Nat.leb_le.
  - apply andb_true_iff in H as [Hlen Htail].
    apply Nat.eqb_eq in Hlen. apply String.eqb_eq in Htail.
    destruct (summarizeText_long text defaultMaxLength) as [-> _]; [lia|].
    rewrite <- Htail.
    replace 3 with (String.length text - defaultMaxLength) by lia.
    apply substring_split. lia.
Qed.

End SummaryFacts.

Import SummaryFacts.

(** C6.  On a TEXT node whose [characters] is a string of more than 100
    units the transformed text is the first 100 units followed by the three
    units of the ellipsis, 103 units in all; a string of at most 100 units
    comes out unchanged.  (The transformation returns on every tree that
    has no [null] or [undefined] node.) *)
Theorem text_is_summarized (node : value) (text : string) :
  get node "type" = Str "TEXT" ->
  get node "characters" = Str text ->
  (wellFormed node = true -> exists m, transformFigmaNode node = OK m)
  /\ forall m, transformFigmaNode node = OK m ->
       (100 < String.length text ->
        characters m = Some (String.substring 0 100 text ++ "...")
        /\ String.length (String.substring 0 100 text ++ "...") = 103)
       /\ (String.length text <= 100 -> characters m = Some text).
Proof.
  intros Hty Htext. split; [apply transformFigmaNode_total|].
  intros m Hm. rewrite transformFigmaNode_eq in Hm.
  destruct (nullish node); [discriminate|].
  destruct (transformChildren (get node "children")) as [cs|]; [|discriminate].
  simpl in Hm. injection Hm as <-. cbn [characters].
  rewrite Hty, Htext. unfold transformCharacters.
  change (String.eqb "TEXT" "TEXT") with true. cbv iota.
  split.
  - intros Hlong.
    destruct (summarizeText_long text defaultMaxLength Hlong) as [Heq Hlen].
    rewrite Heq in Hlen |- *. now split.
  - intros Hshort. now rewrite summarizeText_short.
Qed.

Lemma text_is_summarized_witness :
  let text := "xxxxxxxxxxxxxxxxxxxxxxxxxxxxxxxxxxxxxxxxxxxxxxxxxxxxxxxxxxxxxxxxxxxxxxxxxxxxxxxxxxxxxxxxxxxxxxxxxxxxxxxxxxxxxxxxxxxxxxxxxxxxxxxxxxxxxxxxxxxxxxxxxxxxxx" in
  let node := Obj [("id", Str "1"); ("name", Str "T"); ("type", Str "TEXT");
                   ("characters", Str text)] in
  exists m,
    transformFigmaNode node = OK m
    /\ characters m = Some ("xxxxxxxxxxxxxxxxxxxxxxxxxxxxxxxxxxxxxxxxxxxxxxxxxxxxxxxxxxxxxxxxxxxxxxxxxxxxxxxxxxxxxxxxxxxxxxxxxxxx" ++ "...").
Proof.
  intros text node.
  destruct (text_is_summarized node text eq_refl eq_refl) as [Htotal Hres].
  destruct (Htotal eq_refl) as [m Hm]. exists m. split; [exact Hm|].
  apply (Hres m Hm). apply Nat.ltb_lt. reflexivity.
Defined.

Module BoxFacts.

Lemma transformBoundingBox_Some (box : value) (b : BoundingBox.t) :
  transformBoundingBox box = Some b <->
  truthy box = true
  /\ get box "x" = Num (BoundingBox.x b) /\ get box "y" = Num (BoundingBox.y b)
  /\ get box "width" = Num (BoundingBox.width b)
  /\ get box "height" = Num (BoundingBox.height b).
Proof.
  unfold transformBoundingBox. split.
  - destruct (truthy box); [|discriminate].
    destruct (get box "x"), (get box "y"), (get box "width"), (get box "height");
      try discriminate.
    intros [= <-]. now repeat split.
  - intros (-> & -> & -> & -> & ->). now destruct b.
Qed.

Lemma transformBoundingBox_None (box : value) (key : string) :
  In key ["x"; "y"; "width"; "height"] ->
  typeof (get box key) <> TNumber ->
  transformBoundingBox box = None.
Proof.
  intros Hkey Hty. unfold transformBoundingBox.
  destruct (truthy box); [|reflexivity].
  simpl in Hkey.
  destruct Hkey as [<-|[<-|[<-|[<-|[]]]]];
    destruct (get box "x"), (get box "y"), (get box "width"), (get box "height");
    try reflexivity; now destruct Hty.
Qed.

End BoxFacts.

Import BoxFacts.

(** C8.  The transformed node has a bounding box exactly when the raw
    [absoluteBoundingBox] is there and its [x], [y], [width] and [height]
    are all numbers, and then the box is those four numbers; as soon as one
    of the four is not a number the node has no bounding box at all. *)
Theorem bounding_box_all_or_nothing (node : value) :
  let box := get node "absoluteBoundingBox" in
  (wellFormed node = true -> exists m, transformFigmaNode node = OK m)
  /\ forall m, transformFigmaNode node = OK m ->
       (forall b, absoluteBoundingBox m = Some b <->
                  truthy box = true
                  /\ get box "x" = Num (BoundingBox.x b)
                  /\ get box "y" = Num (BoundingBox.y b)
                  /\ get box "width" = Num (BoundingBox.width b)
                  /\ get box "height" = Num (BoundingBox.height b))
       /\ (forall key, In key ["x"; "y"; "width"; "height"] ->
                       typeof (get box key) <> TNumber ->
                       absoluteBoundingBox m = None).
Proof.
  intros box. split; [apply transformFigmaNode_total|].
  intros m Hm. rewrite transformFigmaNode_eq in Hm.
  destruct (nullish node); [discriminate|].
  destruct (transformChildren (get node "children")) as [cs|]; [|discriminate].
  simpl in Hm. injection Hm as <-. cbn [absoluteBoundingBox]. split.
  - intros b. apply transformBoundingBox_Some.
  - intros key. apply transformBoundingBox_None.
Qed.

Lemma bounding_box_all_or_nothing_witness :
  let n1 := S754_finite false 1 0 in
  let n10 := S754_finite false 5 1 in
  let node := Obj [("id", Str "1"); ("name", Str "N"); ("type", Str "FRAME");
                   ("absoluteBoundingBox",
                    Obj [("x", Num n1); ("y", Str "bad");
                         ("width", Num n10); ("height", Num n10)])] in
  exists m, transformFigmaNode node = OK m /\ absoluteBoundingBox m = None.
Proof.
  intros n1 n10 node.
  destruct (bounding_box_all_or_nothing node) as [Htotal Hbox].
  destruct (Htotal eq_refl) as [m Hm]. exists m. split; [exact Hm|].
  apply (proj2 (Hbox m Hm) "y").
  - simpl. tauto.
  - discriminate.
Defined.

Module FillFacts.

Lemma transformColor_falsy (color : value) :
  truthy color = false -> transformColor color = None.
Proof. intros H. unfold transformColor. now rewrite H. Qed.

Lemma transformColor_None (color : value) (key : string) :
  In key ["r"; "g"; "b"; "a"] ->
  typeof (get color key) <> TNumber ->
  transformColor color = None.
Proof.
  intros Hkey Hty. unfold transformColor.
  destruct (negb (truthy color)); [reflexivity|].
  destruct (typeof color); try reflexivity.
  simpl in Hkey.
  destruct Hkey as [<-|[<-|[<-|[<-|[]]]]];
    destruct (get color "r"), (get color "g"), (get color "b"), (get color "a");
    try reflexivity; now destruct Hty.
Qed.

Lemma get_not_Undefined (v : value) (key : string) :
  get v key <> Undefined -> truthy v = true /\ typeof v = TObject.
Proof. destruct v; try (intros H; now destruct H). now split. Qed.

Lemma transformFill_typed (fill : value) (ty : string) :
  get fill "type" = Str ty ->
  transformFill fill = Some (Fill.mk ty (transformColor (get fill "color"))).
Proof.
  intros Hty. unfold transformFill.
  destruct (get_not_Undefined fill "type") as [-> ->]; [now rewrite Hty|].
  rewrite Hty. simpl.
  destruct (truthy (get fill "color")) eqn:Hc; [reflexivity|].
  now rewrite transformColor_falsy.
Qed.

Lemma transformFill_untyped (fill : value) :
  typeof (get fill "type") <> TString -> transformFill fill = None.
Proof.
  intros Hty. unfold transformFill.
  destruct (negb (truthy fill)); [reflexivity|].
  destruct (typeof fill); try reflexivity.
  destruct (get fill "type"); try reflexivity. now destruct Hty.
Qed.

Lemma definedFills_kept (items : list value) :
  definedFills (map transformFill items) = flat_map keptFill items.
Proof.
  induction items as [|fill items IH]; [reflexivity|].
  cbn [map flat_map]. unfold keptFill at 1.
  destruct (get fill "type") as [| | | |ty| |] eqn:Hty;
    try (rewrite transformFill_untyped by (rewrite Hty; discriminate); exact IH).
  rewrite (transformFill_typed fill ty Hty). simpl. now rewrite IH.
Qed.

Lemma transformFills_not_empty (fills : value) :
  transformFills fills <> Some [].
Proof.
  unfold transformFills. destruct fills; try discriminate.
  destruct (definedFills (map transformFill items)); discriminate.
Qed.

Lemma transformStyle_fills (style : value) (st : Style.t) :
  transformStyle style = Some st ->
  Style.fills st = transformFills (get style "fills").
Proof.
  unfold transformStyle.
  destruct (negb (truthy style)); [discriminate|].
  destruct (typeof style); try discriminate.
  match goal with |- context [Style.hasKeys ?r] => destruct (Style.hasKeys r) end;
    [|discriminate].
  now intros [= <-].
Qed.

End FillFacts.

Import FillFacts.

(** C9.  A fill without a string [type] is dropped; a fill with a string
    [type] whose colour lacks a numeric [r], [g], [b] or [a] is kept, without
    a colour; the fills of the style are the fills that were kept, in order,
    and the style has a [fills] array only when at least one was kept. *)
Theorem fills_are_validated :
  (forall fill, typeof (get fill "type") <> TString -> transformFill fill = None)
  /\ (forall fill ty key,
         get fill "type" = Str ty ->
         In key ["r"; "g"; "b"; "a"] ->
         typeof (get (get fill "color") key) <> TNumber ->
         transformFill fill = Some (Fill.mk ty None))
  /\ (forall style items st,
         get style "fills" = Arr items ->
         transformStyle style = Some st ->
         let survivors := definedFills (map transformFill items) in
         survivors = flat_map keptFill items
         /\ (survivors = [] -> Style.fills st = None)
         /\ (survivors <> [] -> Style.fills st = Some survivors)).
Proof.
  split; [exact transformFill_untyped|]. split.
  - intros fill ty key Hty Hkey Hch.
    rewrite (transformFill_typed fill ty Hty).
    now rewrite (transformColor_None _ key Hkey Hch).
  - intros style items st Hfills Hst survivors.
    split; [apply definedFills_kept|].
    rewrite (transformStyle_fills style st Hst), Hfills.
    unfold transformFills. fold survivors.
    destruct survivors; split; congruence.
Qed.

Lemma fills_are_validated_witness :
  let half := S754_finite false 1 (-1) in
  let untyped := Obj [("color", Obj [("r", Num half)])] in
  let partial := Obj [("type", Str "SOLID");
                      ("color", Obj [("r", Num half); ("g", Num half); ("b", Num half)])] in
  let style := Obj [("fills", Arr [untyped; partial])] in
  transformFill untyped = None
  /\ transformFill partial = Some (Fill.mk "SOLID" None)
  /\ option_map Style.fills (transformStyle style) = Some (Some [Fill.mk "SOLID" None]).
Proof.
  intros half untyped partial style.
  destruct fills_are_validated as (Hdrop & Hkeep & Hattach).
  split; [apply Hdrop; discriminate|].
  split; [apply (Hkeep partial "SOLID" "a" eq_refl); [simpl; tauto | discriminate]|].
  destruct (transformStyle style) as [st|] eqn:Hst; [|discriminate Hst].
  simpl. f_equal.
  apply (proj2 (Hattach style [untyped; partial] st eq_refl Hst)). discriminate.
Defined.

Module LineHeightFacts.

Lemma transformLineHeight_number (n : number) :
  transformLineHeight (Num n) = Some n.
Proof. reflexivity. Qed.

Lemma transformLineHeight_object (lineHeight : value) (n : number) :
  get lineHeight "value" = Num n ->
  transformLineHeight lineHeight = if truthy (Num n) then Some n else None.
Proof.
  intros Hv. destruct lineHeight; try discriminate Hv.
  unfold transformLineHeight. cbn [nullish]. rewrite Hv.
  now destruct (truthy (Num n)).
Qed.

Lemma transformStyle_lineHeight (style : value) (st : Style.t) :
  transformStyle style = Some st ->
  Style.lineHeight st = transformLineHeight (get style "lineHeight").
Proof.
  unfold transformStyle.
  destruct (negb (truthy style)); [discriminate|].
  destruct (typeof style); try discriminate.
  match goal with |- context [Style.hasKeys ?r] => destruct (Style.hasKeys r) end;
    [|discriminate].
  now intros [= <-].
Qed.

End LineHeightFacts.

Import LineHeightFacts.

Example lineHeight_of_object :
  let n24 := S754_finite false 3 3 in
  transformStyle (Obj [("lineHeight", Obj [("value", Num n24); ("unit", Str "PIXELS")])])
  = Some (Style.mk None None None None (Some n24) None None).
Proof. reflexivity. Qed.

(** C3 at the input on which the code departs from it.  An object whose
    [value] is the number zero has a numeric [value], yet the style comes
    out without a line height: the test [style.lineHeight?.value && ...]
    asks for a truthy value, and zero is falsy.  The bare number zero, two
    lines above, is kept. *)
Theorem lineHeight_zero_value_is_dropped :
  let zero := S754_zero false in
  let n12 := S754_finite false 3 2 in
  transformStyle
    (Obj [("fontSize", Num n12);
          ("lineHeight", Obj [("value", Num zero); ("unit", Str "PIXELS")])])
  = Some (Style.mk None (Some n12) None None None None None)
  /\ transformStyle (Obj [("fontSize", Num n12); ("lineHeight", Num zero)])
     = Some (Style.mk None (Some n12) None None (Some zero) None None).
Proof. split; reflexivity. Qed.

Module MinimalFacts.

Ltac by_cases_on_options :=
  repeat match goal with
         | |- context [prop _ _ ?o] => is_var o; destruct o
         end; reflexivity.

Lemma get_nodeValue (n : MinimalFigmaNode) :
  get (nodeValue n) "id" = id n
  /\ get (nodeValue n) "name" = name n
  /\ get (nodeValue n) "type" = type n
  /\ get (nodeValue n) "absoluteBoundingBox" = optValue boxValue (absoluteBoundingBox n)
  /\ get (nodeValue n) "style" = optValue styleValue (style n)
  /\ get (nodeValue n) "characters" = optValue Str (characters n)
  /\ get (nodeValue n) "children"
     = optValue (fun cs => Arr (map nodeValue cs)) (children n).
Proof.
  destruct n as [i nm ty box st text cs]. cbn [nodeValue id name type
    absoluteBoundingBox style characters children].
  repeat apply conj; by_cases_on_options.
Qed.

Lemma get_styleValue (s : Style.t) :
  get (styleValue s) "fontFamily" = optValue Str (Style.fontFamily s)
  /\ get (styleValue s) "fontSize" = optValue Num (Style.fontSize s)
  /\ get (styleValue s) "fontWeight" = optValue Num (Style.fontWeight s)
  /\ get (styleValue s) "letterSpacing" = optValue Num (Style.letterSpacing s)
  /\ get (styleValue s) "lineHeight" = optValue Num (Style.lineHeight s)
  /\ get (styleValue s) "textAlignHorizontal"
     = optValue Str (Style.textAlignHorizontal s)
  /\ get (styleValue s) "fills"
     = optValue (fun fs => Arr (map fillValue fs)) (Style.fills s).
Proof.
  destruct s as [ff fs fw ls lh ta fl]. unfold styleValue. cbn [Style.fontFamily
    Style.fontSize Style.fontWeight Style.letterSpacing Style.lineHeight
    Style.textAlignHorizontal Style.fills].
  repeat apply conj; by_cases_on_options.
Qed.

Lemma transformBoundingBox_boxValue (box : option BoundingBox.t) :
  transformBoundingBox (optValue boxValue box) = box.
Proof. destruct box as [[]|]; reflexivity. Qed.

Lemma transformFill_fillValue (f : Fill.t) : transformFill (fillValue f) = Some f.
Proof. destruct f as [ty [[]|]]; reflexivity. Qed.

Lemma definedFills_fillValue (fs : list Fill.t) :
  definedFills (map transformFill (map fillValue fs)) = fs.
Proof.
  induction fs as [|f fs IH]; [reflexivity|].
  simpl. rewrite transformFill_fillValue. now rewrite IH.
Qed.

Lemma asString_optValue (o : option string) : asString (optValue Str o) = o.
Proof. now destruct o. Qed.

Lemma asNumber_optValue (o : option number) : asNumber (optValue Num o) = o.
Proof. now destruct o. Qed.

Lemma transformLineHeight_optValue (o : option number) :
  transformLineHeight (optValue Num o) = o.
Proof. now destruct o. Qed.

Lemma transformFills_optValue (o : option (list Fill.t)) :
  o <> Some [] ->
  transformFills (optValue (fun fs => Arr (map fillValue fs)) o) = o.
Proof.
  destruct o as [fs|]; [|reflexivity]. intros Hne.
  simpl. rewrite definedFills_fillValue. destruct fs; [now destruct Hne|reflexivity].
Qed.

Lemma transformStyle_styleValue (s : Style.t) :
  styleOk s = true -> transformStyle (styleValue s) = Some s.
Proof.
  intros Hok. apply andb_true_iff in Hok as [Hkeys Hfills].
  unfold transformStyle. change (truthy (styleValue s)) with true.
  change (typeof (styleValue s)) with TObject. cbv iota. cbn [negb].
  destruct (get_styleValue s) as (-> & -> & -> & -> & -> & -> & ->).
  rewrite !asString_optValue, !asNumber_optValue, transformLineHeight_optValue.
  rewrite transformFills_optValue.
  - destruct s; cbn in *. now rewrite Hkeys.
  - intros Heq. now rewrite Heq in Hfills.
Qed.

Lemma transformStyle_optValue (st : option Style.t) :
  match st with
  | Some s => styleOk s
  | None => true
  end = true ->
  transformStyle (optValue styleValue st) = st.
Proof. destruct st as [s|]; [apply transformStyle_styleValue | reflexivity]. Qed.

Lemma transformCharacters_optValue (ty : value) (text : option string) :
  textOk ty text = true ->
  transformCharacters ty (optValue Str text) = text.
Proof.
  destruct text as [t|]; [|now destruct ty].
  unfold textOk. destruct ty; try discriminate.
  intros H. apply andb_true_iff in H as [Hty Hsum].
  simpl. rewrite Hty. now rewrite summarizeText_isSummary.
Qed.

(** A minimal node is a fixed point of the transformation. *)
Lemma nodeValue_fixed_point (n : MinimalFigmaNode) :
  isMinimal n = true -> transformFigmaNode (nodeValue n) = OK n.
Proof.
  induction n as [i nm ty box st text | i nm ty box st text cs IH]
    using node_nested_ind; intros Hmin;
    rewrite transformFigmaNode_eq;
    change (nullish (nodeValue ?n)) with false; cbv iota;
    match goal with
    | |- context [nodeValue ?n] =>
        destruct (get_nodeValue n) as (-> & -> & -> & -> & -> & -> & ->)
    end;
    cbn [id name type absoluteBoundingBox style characters children] in *;
    cbn [isMinimal] in Hmin;
    apply andb_true_iff in Hmin as [Hmin Hcs];
    apply andb_true_iff in Hmin as [Hst Htext];
    rewrite transformBoundingBox_boxValue, (transformStyle_optValue st Hst),
      (transformCharacters_optValue ty text Htext).
  - reflexivity.
  - cbn [optValue transformChildren].
    assert (Hmap : mapM transformFigmaNode (map nodeValue cs) = OK cs).
    { apply mapM_OK. induction IH as [|c cs Hc _ IHcs]; [constructor|].
      simpl in Hcs. apply andb_true_iff in Hcs as [Hmc Hmcs].
      constructor; [now apply Hc | now apply IHcs]. }
    now rewrite Hmap.
Qed.

Lemma styleOk_transformStyle (style : value) (s : Style.t) :
  transformStyle style = Some s -> styleOk s = true.
Proof.
  intros Hs. unfold styleOk. apply andb_true_iff. split.
  - revert Hs. unfold transformStyle.
    destruct (negb (truthy style)); [discriminate|].
    destruct (typeof style); try discriminate.
    match goal with |- context [Style.hasKeys ?r] => destruct (Style.hasKeys r) eqn:Hk end;
      [|discriminate].
    now intros [= <-].
  - rewrite (transformStyle_fills style s Hs).
    pose proof (transformFills_not_empty (get style "fills")) as Hne.
    destruct (transformFills (get style "fills")) as [[|]|]; congruence.
Qed.

Lemma textOk_transformCharacters (ty characters : value) :
  textOk ty (transformCharacters ty characters) = true.
Proof.
  unfold transformCharacters.
  destruct ty; try reflexivity. destruct characters; try reflexivity.
  destruct (String.eqb s "TEXT") eqn:Hty; [|reflexivity].
  simpl. rewrite Hty. apply isSummary_summarizeText.
Qed.

(** Every node the transformation returns is minimal. *)
Lemma transformFigmaNode_isMinimal (node : value) :
  forall m, transformFigmaNode node = OK m -> isMinimal m = true.
Proof.
  induction node as [node IH] using children_ind. intros m.
  rewrite transformFigmaNode_eq.
  destruct (nullish node); [discriminate|].
  destruct (transformChildren (get node "children")) as [cs|] eqn:Hcs; [|discriminate].
  simpl. intros [= <-]. cbn [isMinimal].
  rewrite textOk_transformCharacters, andb_true_r.
  apply andb_true_iff. split.
  - destruct (transformStyle (get node "style")) as [s|] eqn:Hs; [|reflexivity].
    now apply (styleOk_transformStyle _ s Hs).
  - destruct cs as [cs|]; [|reflexivity].
    unfold transformChildren in Hcs.
    destruct (get node "children") as [| | | | |items|]; try discriminate.
    destruct (mapM transformFigmaNode items) as [cs'|] eqn:Hmap; [|discriminate].
    injection Hcs as <-. apply mapM_OK in Hmap.
    specialize (IH items eq_refl).
    induction Hmap as [|x c items cs Hx _ IHmap]; [reflexivity|].
    inversion IH as [|? ? Hqx Hqitems]; subst.
    simpl. rewrite (Hqx c Hx). now apply IHmap.
Qed.

(** Transforming the result of a transformation changes nothing. *)
Corollary transformFigmaNode_twice (node : value) (m : MinimalFigmaNode) :
  transformFigmaNode node = OK m -> transformFigmaNode (nodeValue m) = OK m.
Proof.
  intros Hm. apply nodeValue_fixed_point. now apply (transformFigmaNode_isMinimal node).
Qed.

End MinimalFacts.

Import MinimalFacts.

(** C4.  A minimal node, read back as a raw node and transformed again,
    comes out as the same node: nothing is added and nothing is lost. *)
Theorem transformFigmaNode_idempotent_on_minimal (m : MinimalFigmaNode) :
  isMinimal m = true -> transformFigmaNode (nodeValue m) = OK m.
Proof. exact (nodeValue_fixed_point m). Qed.

Lemma transformFigmaNode_idempotent_on_minimal_witness :
  let n12 := S754_finite false 3 2 in
  let half := S754_finite false 1 (-1) in
  let text :=
    mkNode (Str "1:2") (Str "Title") (Str "TEXT")
           (Some (BoundingBox.mk (S754_zero false) (S754_zero false) n12 n12))
           (Some (Style.mk (Some "Inter") (Some n12) None None (Some n12) None
                           (Some [Fill.mk "SOLID" (Some (Color.mk half half half half));
                                  Fill.mk "IMAGE" None])))
           (Some "Hello") None in
  let frame :=
    mkNode (Str "1:1") (Str "Frame") (Str "FRAME") None None None
           (Some [text; mkNode (Str "1:3") (Str "Empty") (Str "GROUP") None None None (Some [])]) in
  transformFigmaNode (nodeValue frame) = OK frame.
Proof.
  intros n12 half text frame.
  exact (transformFigmaNode_idempotent_on_minimal frame eq_refl).
Defined.

(** ** The resource gateway *)

(** A short name for the handler in the lemmas about it. *)
Module Handler := FigmaResourceHandler.

Module HandlerFacts.

Section Requests.

Context {A : Type}.
Variable token : string.
Variable upstream : string -> Response A.

Lemma figmaRequest_ok (path : string) (sent : list Request) :
  ok (upstream (Handler.baseUrl ++ path)) = true ->
  Handler.figmaRequest token upstream path sent
  = ((sent ++ [mkRequest (Handler.baseUrl ++ path) token])%list,
     OK (json (upstream (Handler.baseUrl ++ path)))).
Proof.
  intros Hok. unfold Handler.figmaRequest, bindIO, Handler.fetch.
  now rewrite Hok.
Qed.

Lemma figmaRequest_sends_one (path : string) (sent : list Request) :
  fst (Handler.figmaRequest token upstream path sent)
  = (sent ++ [mkRequest (Handler.baseUrl ++ path) token])%list.
Proof.
  unfold Handler.figmaRequest, bindIO, Handler.fetch.
  destruct (negb (ok (upstream (Handler.baseUrl ++ path)))); [|reflexivity].
  destruct (status (upstream (Handler.baseUrl ++ path)) =? 404)%N; [reflexivity|].
  destruct (status (upstream (Handler.baseUrl ++ path)) =? 403)%N; reflexivity.
Qed.

(** What [watch] sends is decided by [resourceType === 'file'] alone. *)
Lemma watch_requests (uri : string) (address : ResourceAddress) :
  validateUri uri = OK address ->
  requests (Handler.watch token upstream uri)
  = if strictEq (resourceType address) "file"
    then [mkRequest (Handler.baseUrl ++ "/files/" ++ template (fileKey address))
                    token]
    else [].
Proof.
  intros Hv. unfold requests, Handler.watch, bindIO. rewrite Hv. simpl.
  destruct (strictEq (resourceType address) "file"); [|reflexivity].
  pose proof (figmaRequest_sends_one
                ("/files/" ++ template (fileKey address)) []) as Hsent.
  destruct (Handler.figmaRequest token upstream _ []) as [sent [a|e]]; exact Hsent.
Qed.

Lemma watch_invalid (uri : string) :
  validateUri uri = Throw (InvalidUriError uri) ->
  Handler.watch token upstream uri [] = ([], Throw (InvalidUriError uri)).
Proof. intros Hv. unfold Handler.watch, bindIO. now rewrite Hv. Qed.

End Requests.

Lemma fold_push {B C : Type} (f : C -> B) (l : list C) (acc : list B) :
  fold_left (fun resources x => Handler.push resources (f x)) l acc
  = (acc ++ map f l)%list.
Proof.
  revert acc; induction l as [|x l IH]; intros acc; simpl.
  - now rewrite List.app_nil_r.
  - rewrite IH. unfold Handler.push. now rewrite <- List.app_assoc.
Qed.

Lemma fold_files (l : list FigmaFile.t) (acc : list FigmaResource.t) :
  fold_left
    (fun resources file =>
       fold_left (fun resources type => Handler.push resources (Handler.subResource file type))
                 Handler.subResources (Handler.push resources (Handler.mainResource file)))
    l acc
  = (acc ++ concat (map fileResources l))%list.
Proof.
  revert acc; induction l as [|file l IH]; intros acc; cbn [fold_left map concat].
  - now rewrite List.app_nil_r.
  - rewrite IH, fold_push. unfold Handler.push, fileResources.
    rewrite <- !List.app_assoc. reflexivity.
Qed.

Lemma list_ok (token : string) (upstream : string -> Response FileListing) :
  ok (upstream (Handler.baseUrl ++ "/me/files")) = true ->
  Handler.list token upstream []
  = ([mkRequest (Handler.baseUrl ++ "/me/files") token],
     OK (concat (map fileResources (files (json (upstream (Handler.baseUrl ++ "/me/files"))))))).
Proof.
  intros Hok. unfold Handler.list, bindIO.
  rewrite (figmaRequest_ok token upstream "/me/files" [] Hok).
  unfold ret. now rewrite fold_files.
Qed.

Lemma fileResources_types (file : FigmaFile.t) :
  map FigmaResource.type (fileResources file)
  = [FigmaResourceType.file; FigmaResourceType.images; FigmaResourceType.comments;
     FigmaResourceType.versions; FigmaResourceType.components;
     FigmaResourceType.styles; FigmaResourceType.variables].
Proof. reflexivity. Qed.

Lemma fileResources_uri (file : FigmaFile.t) (e : FigmaResource.t) :
  In e (fileResources file) ->
  FigmaResource.uri e
  = assemble (mkAddress (Some (FigmaFile.key file))
                        (categoryOf (FigmaResource.type e)) None).
Proof.
  unfold fileResources, assemble. simpl.
  intros [<-|[<-|[<-|[<-|[<-|[<-|[<-|[]]]]]]]]; simpl;
    now rewrite ?append_empty_r.
Qed.

Lemma fileResources_address (file : FigmaFile.t) (e : FigmaResource.t) :
  In e (fileResources file) ->
  isToken RegExp.wordOrHyphen (FigmaFile.key file) = true ->
  validateUri (FigmaResource.uri e)
  = OK (mkAddress (Some (FigmaFile.key file)) (categoryOf (FigmaResource.type e)) None).
Proof.
  intros Hin Hkey. apply validateUri_OK_iff. split; [|reflexivity].
  unfold fileResources in Hin. simpl in Hin.
  destruct Hin as [<-|[<-|[<-|[<-|[<-|[<-|[<-|[]]]]]]]]; simpl;
    first [ now apply WholeDocument
          | now apply (Category (FigmaFile.key file) _ Hkey) ].
Qed.

End HandlerFacts.

Import HandlerFacts.

(** C1 at the input on which the code departs from it.  The address of a
    whole document has no category, so [resourceType] is [undefined] there
    and never ['file']: [watch] returns without any request to the remote
    service.  The one address on which it does send the request carries a
    category, the word [file]. *)
Theorem watch_whole_document_sends_no_request :
  forall (token : string) (upstream : string -> Response value),
    validateUri "figma:///file/ABC123" = OK (mkAddress (Some "ABC123") None None)
    /\ FigmaResourceHandler.watch token upstream "figma:///file/ABC123" [] = ([], OK tt)
    /\ requests (FigmaResourceHandler.watch token upstream "figma:///file/ABC123/file")
       = [mkRequest "https://api.figma.com/v1/files/ABC123" token].
Proof.
  intros token upstream. split; [reflexivity|]. split; [reflexivity|].
  now rewrite (watch_requests token upstream "figma:///file/ABC123/file"
                 (mkAddress (Some "ABC123") (Some "file") None)).
Qed.

(** C2, as the specification has it, fails: the listing of a document has
    seven entries, and none of them is for the category [nodes]. *)
Lemma list_has_no_nodes_entry :
  let upstream := fun _ : string =>
    mkResponse 200 "OK" (mkFileListing [FigmaFile.mk "ABC" "Doc" "2024-01-01" "t.png" "1"]) in
  exists resources,
    outcome (FigmaResourceHandler.list "token" upstream) = OK resources
    /\ map FigmaResource.uri resources
       = ["figma:///file/ABC"; "figma:///file/ABC/images"; "figma:///file/ABC/comments";
          "figma:///file/ABC/versions"; "figma:///file/ABC/components";
          "figma:///file/ABC/styles"; "figma:///file/ABC/variables"]
    /\ ~ In FigmaResourceType.nodes (map FigmaResource.type resources).
Proof.
  intros upstream. eexists. split; [reflexivity|]. split; [reflexivity|].
  simpl. intros H. repeat (destruct H as [H|H]; [discriminate H|]). exact H.
Qed.

(** C2, as the code has it.  When the remote service answers the listing
    request, the result is, file by file and in order, one entry for the
    whole document followed by one entry for each of [images], [comments],
    [versions], [components], [styles] and [variables].  The identifier of
    an entry is [figma:///file/<key>] or [figma:///file/<key>/<category>],
    and it resolves to that key and category whenever the key is one or
    more word or hyphen characters. *)
Theorem list_entries_per_file (token : string) (upstream : string -> Response FileListing) :
  let response := upstream (FigmaResourceHandler.baseUrl ++ "/me/files") in
  ok response = true ->
  exists blocks,
    outcome (FigmaResourceHandler.list token upstream) = OK (concat blocks)
    /\ Forall2
         (fun file block =>
            map FigmaResource.type block
            = [FigmaResourceType.file; FigmaResourceType.images;
               FigmaResourceType.comments; FigmaResourceType.versions;
               FigmaResourceType.components; FigmaResourceType.styles;
               FigmaResourceType.variables]
            /\ forall e, In e block ->
                 let address := mkAddress (Some (FigmaFile.key file))
                                          (categoryOf (FigmaResource.type e)) None in
                 FigmaResource.uri e = assemble address
                 /\ (isToken RegExp.wordOrHyphen (FigmaFile.key file) = true ->
                     validateUri (FigmaResource.uri e) = OK address))
         (files (json response)) blocks.
Proof.
  intros response Hok. exists (map fileResources (files (json response))).
  split.
  - unfold outcome. now rewrite (list_ok token upstream Hok).
  - induction (files (json response)) as [|file l IH]; constructor; [|exact IH].
    split; [apply fileResources_types|].
    intros e He address. split.
    + now apply fileResources_uri.
    + now apply fileResources_address.
Qed.

Lemma list_entries_per_file_witness :
  let upstream := fun _ : string =>
    mkResponse 200 "OK" (mkFileListing [FigmaFile.mk "ABC" "Doc" "2024-01-01" "t.png" "1"]) in
  exists blocks,
    outcome (FigmaResourceHandler.list "token" upstream) = OK (concat blocks)
    /\ length blocks = 1.
Proof.
  intros upstream.
  destruct (list_entries_per_file "token" upstream eq_refl) as (blocks & Hout & Hall).
  exists blocks. split; [exact Hout|].
  apply Forall2_length in Hall. now rewrite <- Hall.
Defined.

(** * Further properties *)

(** ** The document normalizer, continued *)

Module NormalizerFacts.

(** The children of a result are the results of the raw children, one for
    one. *)
Lemma transformFigmaNode_children (node : value) (m : MinimalFigmaNode) :
  transformFigmaNode node = OK m ->
  match get node "children" with
  | Arr items =>
      exists cs, children m = Some cs
                 /\ Forall2 (fun item c => transformFigmaNode item = OK c) items cs
  | _ => children m = None
  end.
Proof.
  rewrite transformFigmaNode_eq. destruct (nullish node); [discriminate|].
  destruct (get node "children") as [| | | | |items|];
    try (simpl; intros [= <-]; reflexivity).
  simpl. destruct (mapM transformFigmaNode items) as [cs|] eqn:Hmap; [|discriminate].
  simpl. intros [= <-]. exists cs. split; [reflexivity|]. now apply mapM_OK.
Qed.

Lemma Forall2_nth_error {A B : Type} (R : A -> B -> Prop) (l : list A) (l' : list B) :
  Forall2 R l l' ->
  forall i, match nth_error l i, nth_error l' i with
            | Some a, Some b => R a b
            | None, None => True
            | _, _ => False
            end.
Proof.
  induction 1 as [|a b l l' Hab _ IH]; intros [|i]; simpl; auto. apply IH.
Qed.

Lemma mapM_Throw_TypeError {A B : Type} (f : A -> result B) (l : list A) :
  Forall (fun a => forall e, f a = Throw e -> e = TypeError) l ->
  forall e, mapM f l = Throw e -> e = TypeError.
Proof.
  induction 1 as [|a l Ha _ IH]; intros e; simpl; [discriminate|].
  destruct (f a) as [b|e'] eqn:Hfa; simpl.
  - fold (mapM f l). destruct (mapM f l) as [bs|e'']; simpl; [discriminate|].
    intros [= <-]. now apply IH.
  - intros [= <-]. now apply Ha.
Qed.

(** The only exception of the transformation is the [TypeError] of a
    property read on [null] or [undefined]. *)
Lemma transformFigmaNode_Throw (node : value) :
  forall e, transformFigmaNode node = Throw e -> e = TypeError.
Proof.
  induction node as [node IH] using children_ind. intros e.
  rewrite transformFigmaNode_eq.
  destruct (nullish node); [now intros [= <-]|].
  destruct (get node "children") as [| | | | |items|] eqn:Hget;
    try discriminate.
  simpl. destruct (mapM transformFigmaNode items) as [cs|e'] eqn:Hmap; simpl;
    [discriminate|].
  intros [= <-]. exact (mapM_Throw_TypeError _ items (IH items eq_refl) e' Hmap).
Qed.

Lemma transformFigmaNode_OK_wellFormed (node : value) :
  forall m, transformFigmaNode node = OK m -> wellFormed node = true.
Proof.
  induction node as [node IH] using children_ind. intros m.
  rewrite transformFigmaNode_eq, wellFormed_eq.
  destruct (nullish node); [discriminate|]. simpl.
  destruct (get node "children") as [| | | | |items|] eqn:Hget; try reflexivity.
  simpl. destruct (mapM transformFigmaNode items) as [cs|] eqn:Hmap; [|discriminate].
  intros _. apply mapM_OK in Hmap. specialize (IH items eq_refl). clear Hget.
  induction Hmap as [|x c items cs Hx _ IHmap]; [reflexivity|].
  inversion IH as [|? ? Hqx Hqitems]; subst.
  simpl. rewrite (Hqx c Hx). now apply IHmap.
Qed.

Lemma transformFigmaDocument_eq (document : value) :
  transformFigmaDocument document
  = if nullish document then Throw TypeError
    else match transformFigmaNode (get document "document") with
         | OK node =>
             OK (TransformedDocument.mk
                   (get document "name") (get document "version")
                   (get document "lastModified") (get document "thumbnailUrl") node)
         | Throw e => Throw e
         end.
Proof. reflexivity. Qed.

End NormalizerFacts.

Import NormalizerFacts.

(** X1.  One [null] or [undefined] node anywhere in the tree (the root, or
    an element of a [children] array at any depth) and the transformation
    returns nothing: it returns a node only for a tree without such a
    node. *)
Theorem transformFigmaNode_returns_nothing_on_null (node : value) :
  wellFormed node = false -> forall m, transformFigmaNode node <> OK m.
Proof.
  intros Hwf m Hm.
  rewrite (transformFigmaNode_OK_wellFormed node m Hm) in Hwf. discriminate.
Qed.

Lemma transformFigmaNode_returns_nothing_on_null_witness :
  let raw := Obj [("id", Str "0");
                  ("children", Arr [Obj [("id", Str "1")];
                                    Obj [("id", Str "2"); ("children", Arr [Null])]])] in
  wellFormed raw = false /\ forall m, transformFigmaNode raw <> OK m.
Proof.
  intros raw. split; [reflexivity|].
  exact (transformFigmaNode_returns_nothing_on_null raw eq_refl).
Defined.

(** X2.  The transformed tree has a node exactly where the raw tree has
    one, at every depth, and the node at a place is the result of the raw
    node at the same place: the i-th child of a result comes from the i-th
    element of the raw [children] array.  An array of n elements gives n
    children, an empty array gives an empty list of children, and a raw
    node without an array gives a node without children. *)
Theorem transformFigmaNode_preserves_places (node : value) (m : MinimalFigmaNode) :
  transformFigmaNode node = OK m ->
  forall path,
    match rawAt path node, nodeAt path m with
    | Some raw, Some n =>
        transformFigmaNode raw = OK n
        /\ match get raw "children" with
           | Arr items => exists cs, children n = Some cs /\ length cs = length items
           | _ => children n = None
           end
    | None, None => True
    | _, _ => False
    end.
Proof.
  intros Hm path. revert node m Hm.
  induction path as [|i path IH]; intros node m Hm;
    pose proof (transformFigmaNode_children node m Hm) as Hcs.
  - cbn [rawAt nodeAt]. split; [exact Hm|].
    destruct (get node "children") as [| | | | |items|]; try exact Hcs.
    destruct Hcs as (cs & Hch & Hall). exists cs. split; [exact Hch|].
    symmetry. exact (Forall2_length Hall).
  - cbn [rawAt nodeAt].
    destruct (get node "children") as [| | | | |items|];
      try (rewrite Hcs; exact I).
    destruct Hcs as (cs & -> & Hall).
    pose proof (Forall2_nth_error _ items cs Hall i) as Hi.
    destruct (nth_error items i) as [item|], (nth_error cs i) as [c|];
      try contradiction; [|exact I].
    exact (IH item c Hi).
Qed.

Lemma transformFigmaNode_preserves_places_witness :
  let first := Obj [("id", Str "1"); ("children", Arr [])] in
  let second := Obj [("id", Str "2")] in
  let raw := Obj [("id", Str "0"); ("extra", Null); ("children", Arr [first; second])] in
  exists m,
    transformFigmaNode raw = OK m
    /\ option_map id (nodeAt [0] m) = Some (Str "1")
    /\ option_map id (nodeAt [1] m) = Some (Str "2")
    /\ nodeAt [2] m = None
    /\ option_map children (nodeAt [0] m) = Some (Some [])
    /\ option_map children (nodeAt [1] m) = Some None.
Proof.
  intros first second raw.
  destruct (transformFigmaNode raw) as [m|] eqn:Hm; [|discriminate Hm].
  exists m. split; [reflexivity|].
  pose proof (transformFigmaNode_preserves_places raw m Hm [0]) as H0.
  pose proof (transformFigmaNode_preserves_places raw m Hm [1]) as H1.
  pose proof (transformFigmaNode_preserves_places raw m Hm [2]) as H2.
  cbn [rawAt] in H0, H1, H2.
  change (get raw "children") with (Arr [first; second]) in H0, H1, H2.
  cbn [nth_error] in H0, H1, H2.
  destruct (nodeAt [0] m) as [n0|]; [|contradiction].
  destruct (nodeAt [1] m) as [n1|]; [|contradiction].
  destruct (nodeAt [2] m) as [n2|]; [contradiction|].
  destruct H0 as [H0 _], H1 as [H1 _].
  injection H0 as <-. injection H1 as <-.
  repeat split.
Defined.

(** X3.  The transformation reads seven properties of a raw node and
    nothing else: two raw nodes that agree on [id], [name], [type],
    [absoluteBoundingBox], [style], [characters] and [children] have the
    same result, whatever other properties they carry. *)
Theorem transformFigmaNode_reads_only_nodeKeys (node1 node2 : value) :
  nullish node1 = false -> nullish node2 = false ->
  (forall key, In key nodeKeys -> get node1 key = get node2 key) ->
  transformFigmaNode node1 = transformFigmaNode node2.
Proof.
  intros Hn1 Hn2 Hkeys. rewrite !transformFigmaNode_eq, Hn1, Hn2.
  unfold nodeKeys in Hkeys. simpl in Hkeys.
  rewrite (Hkeys "id"), (Hkeys "name"), (Hkeys "type"),
    (Hkeys "absoluteBoundingBox"), (Hkeys "style"), (Hkeys "characters"),
    (Hkeys "children") by tauto.
  reflexivity.
Qed.

Lemma transformFigmaNode_reads_only_nodeKeys_witness :
  let n5 := S754_finite false 5 0 in
  transformFigmaNode
    (Obj [("id", Str "1"); ("name", Str "N"); ("type", Str "FRAME");
          ("opacity", Num n5); ("locked", Bool true)])
  = transformFigmaNode
      (Obj [("blendMode", Str "NORMAL"); ("type", Str "FRAME");
            ("name", Str "N"); ("id", Str "1")]).
Proof.
  intros n5.
  apply transformFigmaNode_reads_only_nodeKeys; [reflexivity | reflexivity |].
  intros key Hkey. unfold nodeKeys in Hkey. simpl in Hkey.
  repeat (destruct Hkey as [<-|Hkey]; [reflexivity|]). destruct Hkey.
Defined.

(** X4.  Every node the transformation returns, and every node below it,
    keeps the invariants of a minimal node: a style is never empty and its
    fills, when present, are never an empty array; characters are present
    on nodes of type TEXT only and are at most 100 units long or 100 units
    followed by the ellipsis. *)
Theorem transformFigmaNode_returns_minimal (node : value) (m : MinimalFigmaNode) :
  transformFigmaNode node = OK m -> isMinimal m = true.
Proof. exact (transformFigmaNode_isMinimal node m). Qed.

Lemma transformFigmaNode_returns_minimal_witness :
  let raw := Obj [("id", Str "1"); ("name", Str "N"); ("type", Str "FRAME");
                  ("style", Obj [("fills", Arr [Null; Str "x"])]);
                  ("characters", Str "not shown");
                  ("children", Arr [])] in
  transformFigmaNode raw
  = OK (mkNode (Str "1") (Str "N") (Str "FRAME") None None None (Some []))
  /\ isMinimal (mkNode (Str "1") (Str "N") (Str "FRAME") None None None (Some []))
     = true.
Proof.
  intros raw. split; [reflexivity|].
  exact (transformFigmaNode_returns_minimal raw _ eq_refl).
Defined.

(** X5.  [summarizeText] never returns more than [maxLength + 3] units,
    keeps the first [maxLength] units of the text as they are, and
    summarizing a summary changes nothing. *)
Theorem summarizeText_bounded_idempotent (text : string) (maxLength : nat) :
  String.length (summarizeText text maxLength) <= maxLength + 3
  /\ String.substring 0 maxLength (summarizeText text maxLength)
     = String.substring 0 maxLength text
  /\ summarizeText (summarizeText text maxLength) maxLength
     = summarizeText text maxLength.
Proof.
  destruct (Nat.le_gt_cases (String.length text) maxLength) as [Hle|Hgt].
  - rewrite !summarizeText_short by (rewrite ?summarizeText_short; exact Hle).
    repeat apply conj; [lia | reflexivity | reflexivity].
  - destruct (summarizeText_long text maxLength Hgt) as [Heq Hlen].
    assert (Hpre : String.substring 0 maxLength (summarizeText text maxLength)
                   = String.substring 0 maxLength text).
    { rewrite Heq.
      rewrite <- (substring_length maxLength text) at 1 by lia.
      apply substring_prefix. }
    repeat apply conj; [lia | exact Hpre |].
    destruct (summarizeText_long (summarizeText text maxLength) maxLength) as [Heq2 _];
      [lia|].
    rewrite Heq2, Hpre. now rewrite Heq.
Qed.

(** X6.  A text one or two units over the limit comes out longer than it
    went in: the ellipsis is appended to the first [maxLength] units
    whenever the limit is exceeded, however slightly. *)
Theorem summarizeText_can_grow (text : string) (maxLength : nat) :
  maxLength < String.length text < maxLength + 3 ->
  String.length text < String.length (summarizeText text maxLength).
Proof.
  intros [Hgt Hlt].
  destruct (summarizeText_long text maxLength Hgt) as [_ Hlen]. lia.
Qed.

Lemma summarizeText_can_grow_witness :
  String.length "abcd" < String.length (summarizeText "abcd" 3).
Proof.
  apply summarizeText_can_grow. simpl. lia.
Defined.

(** X7.  When [lineHeight] is not a number but has a [value] that is a
    number other than zero and NaN, a style is extracted and its line
    height is that number. *)
Theorem lineHeight_of_truthy_value (style : value) (n : number) :
  get (get style "lineHeight") "value" = Num n ->
  truthy (Num n) = true ->
  exists st, transformStyle style = Some st /\ Style.lineHeight st = Some n.
Proof.
  intros Hvalue Htruthy.
  assert (Hext : transformLineHeight (get style "lineHeight") = Some n).
  { rewrite (transformLineHeight_object _ n Hvalue). now rewrite Htruthy. }
  destruct (get_not_Undefined style "lineHeight") as [Hts Hto].
  { intros Hu. rewrite Hu in Hvalue. discriminate Hvalue. }
  unfold transformStyle. rewrite Hts, Hto, Hext. cbn [negb].
  destruct (asString (get style "fontFamily")), (asNumber (get style "fontSize")),
    (asNumber (get style "fontWeight")), (asNumber (get style "letterSpacing"));
    (eexists; split; reflexivity).
Qed.

Lemma lineHeight_of_truthy_value_witness :
  let n24 := S754_finite false 3 3 in
  exists st,
    transformStyle (Obj [("lineHeight", Obj [("value", Num n24); ("unit", Str "PIXELS")])])
    = Some st
    /\ Style.lineHeight st = Some n24.
Proof.
  intros n24.
  apply (lineHeight_of_truthy_value _ n24); reflexivity.
Defined.

(** ** The URI resolver, continued *)

(** X8.  Whatever [validateUri] returns is a well-formed address: the file
    key is there and is one or more word or hyphen characters, a category
    is one or more word characters, a sub-identifier is non-empty, holds no
    line terminator and never comes without a category, and the three
    components put together again are the identifier that was resolved. *)
Theorem validateUri_returns_well_formed (uri : string) (a : ResourceAddress) :
  validateUri uri = OK a ->
  (exists key, fileKey a = Some key /\ isToken wordOrHyphen key = true)
  /\ (forall cat, resourceType a = Some cat -> isToken word cat = true)
  /\ (forall sub, resourceId a = Some sub ->
                  sub <> "" /\ allChars dot sub = true /\ resourceType a <> None)
  /\ assemble a = uri.
Proof.
  intros Hv. apply validateUri_OK_iff in Hv as [Hg Hline].
  split; [|split; [|split; [|now apply assemble_grammar]]].
  - destruct Hg; eexists; (split; [reflexivity | assumption]).
  - intros cat. destruct Hg; cbn [resourceType]; intros [= <-]; assumption.
  - intros sub. destruct Hg; cbn [resourceId resourceType]; intros [= <-].
    unfold singleLine in Hline; cbn [resourceId] in Hline.
    repeat apply conj; [assumption | assumption | discriminate].
Qed.

Lemma validateUri_returns_well_formed_witness :
  assemble (mkAddress (Some "ABC123") (Some "nodes") (Some "1:2/3"))
  = "figma:///file/ABC123/nodes/1:2/3".
Proof.
  exact (proj2 (proj2 (proj2
    (validateUri_returns_well_formed "figma:///file/ABC123/nodes/1:2/3" _ eq_refl)))).
Defined.

(** X9.  Two identifiers that resolve to the same address are the same
    identifier. *)
Theorem validateUri_injective (uri1 uri2 : string) (a : ResourceAddress) :
  validateUri uri1 = OK a -> validateUri uri2 = OK a -> uri1 = uri2.
Proof.
  intros H1 H2.
  apply validateUri_OK_iff in H1 as [Hg1 _]. apply validateUri_OK_iff in H2 as [Hg2 _].
  now rewrite <- (assemble_grammar uri1 a Hg1), <- (assemble_grammar uri2 a Hg2).
Qed.

Lemma validateUri_injective_witness :
  "figma:///file/ABC" ++ "/images" = "figma:///file/ABC/images".
Proof.
  exact (validateUri_injective ("figma:///file/ABC" ++ "/images")
           "figma:///file/ABC/images"
           (mkAddress (Some "ABC") (Some "images") None) eq_refl eq_refl).
Defined.

(** ** The resource gateway, continued *)

Module GatewayFacts.

Section Requests.

Context {A : Type}.
Variable token : string.
Variable upstream : string -> Response A.

Lemma figmaRequest_run (path : string) (sent : list Request) :
  Handler.figmaRequest token upstream path sent
  = ((sent ++ [requestOf token path])%list,
     settle (upstream (Handler.baseUrl ++ path))).
Proof.
  unfold Handler.figmaRequest, bindIO, Handler.fetch, settle, requestOf.
  destruct (negb (ok (upstream (Handler.baseUrl ++ path)))); [|reflexivity].
  destruct (status (upstream (Handler.baseUrl ++ path)) =? 404)%N; [reflexivity|].
  destruct (status (upstream (Handler.baseUrl ++ path)) =? 403)%N; reflexivity.
Qed.

End Requests.

Lemma settle_cases {A : Type} (response : Response A) :
  let s := status response in
  ((200 <= s <= 299)%N /\ settle response = OK (json response))
  \/ (s = 404%N
      /\ settle response = Throw (ResourceNotFoundError "Figma resource not found"))
  \/ (s = 403%N
      /\ settle response
         = Throw (ResourceAccessDeniedError "Access to Figma resource denied"))
  \/ (~ (200 <= s <= 299)%N /\ s <> 404%N /\ s <> 403%N
      /\ settle response = Throw (Error ("Figma API error: " ++ statusText response))).
Proof.
  intros s. unfold settle, ok. fold s.
  destruct (N.leb_spec 200 s), (N.leb_spec s 299); cbn [andb negb];
    try (left; split; [lia | reflexivity]);
    (destruct (N.eqb_spec s 404);
     [right; left; now split|];
     destruct (N.eqb_spec s 403);
     [right; right; left; now split|];
     right; right; right; repeat apply conj; [lia | assumption | assumption | reflexivity]).
Qed.

End GatewayFacts.

Import GatewayFacts.

(** X10.  [figmaRequest] sends exactly one request, to the base URL followed
    by the path and with the handler's token, whatever the status of the
    answer.  It throws the not-found error exactly when the status is 404
    and the access-denied error exactly when it is 403; for every other
    status outside 200 to 299 it throws a generic error that carries the
    status text; and it returns a body only when the status is 200 to 299,
    the body of the answer then. *)
Theorem figmaRequest_translates_status
        (A : Type) (token : string) (upstream : string -> Response A) (path : string) :
  let response := upstream ("https://api.figma.com/v1" ++ path) in
  let result := outcome (FigmaResourceHandler.figmaRequest token upstream path) in
  requests (FigmaResourceHandler.figmaRequest token upstream path)
  = [mkRequest ("https://api.figma.com/v1" ++ path) token]
  /\ (forall body, result = OK body ->
                   (200 <= status response <= 299)%N /\ body = json response)
  /\ (status response = 404%N
      <-> result = Throw (ResourceNotFoundError "Figma resource not found"))
  /\ (status response = 403%N
      <-> result = Throw (ResourceAccessDeniedError "Access to Figma resource denied"))
  /\ (~ (200 <= status response <= 299)%N ->
      status response <> 404%N -> status response <> 403%N ->
      result = Throw (Error ("Figma API error: " ++ statusText response))).
Proof.
  intros response result. unfold requests, outcome in *. subst result.
  rewrite figmaRequest_run. cbn [fst snd app].
  change (Handler.baseUrl ++ path) with ("https://api.figma.com/v1" ++ path).
  fold response. split; [reflexivity|].
  pose proof (settle_cases response) as Hcases. cbv zeta in Hcases.
  destruct Hcases as [[Hs ->]|[[Hs ->]|[[Hs ->]|(Hs & H4 & H3 & ->)]]];
    (split; [intros body Hbody; first [discriminate Hbody | now injection Hbody as <-]|]);
    repeat apply conj; try split; intros;
    first [ reflexivity | discriminate | assumption | contradiction | lia ].
Qed.

Lemma figmaRequest_translates_status_witness :
  let upstream := fun _ : string => mkResponse 500 "Internal Server Error" Null in
  outcome (FigmaResourceHandler.figmaRequest "token" upstream "/files/ABC")
  = Throw (Error "Figma API error: Internal Server Error").
Proof.
  intros upstream.
  apply (figmaRequest_translates_status value "token" upstream "/files/ABC");
    [cbn; lia | discriminate | discriminate].
Defined.

Module ReadFacts.

Lemma split_cons (sep : ascii) (s : string) :
  exists piece pieces, split sep s = piece :: pieces.
Proof.
  induction s as [|ch s (piece & pieces & IH)]; simpl; [now eexists; eexists|].
  destruct (Ascii.eqb ch sep); [now eexists; eexists|].
  rewrite IH. now eexists; eexists.
Qed.

(** Joining what was split gives the text back. *)
Lemma join_split (sep : ascii) (s : string) :
  join (String sep "") (split sep s) = s.
Proof.
  induction s as [|ch s IH]; [reflexivity|].
  destruct (split_cons sep s) as (piece & pieces & Hs).
  cbn [split]. rewrite Hs in IH |- *.
  destruct (Ascii.eqb_spec ch sep) as [->|_].
  - change (join (String sep "") ("" :: piece :: pieces))
      with ("" ++ String sep "" ++ join (String sep "") (piece :: pieces)).
    now rewrite IH.
  - destruct pieces as [|p ps].
    + cbn [join] in IH |- *. now rewrite IH.
    + change (join (String sep "") (String ch piece :: p :: ps))
        with (String ch (piece ++ String sep "" ++ join (String sep "") (p :: ps))).
      change (join (String sep "") (piece :: p :: ps))
        with (piece ++ String sep "" ++ join (String sep "") (p :: ps)) in IH.
      now rewrite IH.
Qed.

Section Read.

Variable stringify : value -> string.
Variable token : string.
Variable upstream : string -> Response value.

Lemma read_rejected (uri : string) (e : exn) :
  validateUri uri = Throw e ->
  Handler.read stringify token upstream uri [] = ([], Throw e).
Proof. intros Hv. unfold Handler.read, bindIO. now rewrite Hv. Qed.

(** [read] on a resolved identifier, as one step. *)
Lemma read_run (uri : string) (a : ResourceAddress) :
  validateUri uri = OK a ->
  Handler.read stringify token upstream uri []
  = match readPlan a with
    | None =>
        ([], Throw (Error ("Unsupported resource type: " ++ template (resourceType a))))
    | Some (path, post) =>
        ([requestOf token path],
         body <- settle (upstream (Handler.baseUrl ++ path)) ;;
         payload <- post body ;;
         OK [ResourceContents.mk uri "application/json" (stringify payload)])
    end.
Proof.
  intros Hv. unfold Handler.read, readPlan, bindIO at 1. rewrite Hv.
  cbn [lift ret]. cbv zeta.
  destruct (falsy (resourceType a)).
  { unfold bindIO. rewrite figmaRequest_run. cbn [app].
    destruct (settle _) as [file|e]; [|reflexivity]. cbn [bind].
    destruct (transformFigmaDocument file) as [d|e]; reflexivity. }
  destruct (String.eqb (template (resourceType a)) "nodes").
  { unfold bindIO. rewrite figmaRequest_run. cbn [app].
    destruct (settle _) as [nodes|e]; [|reflexivity]. cbn [bind].
    destruct (Handler.transformNodes nodes) as [t|e]; reflexivity. }
  repeat match goal with
         | |- context [if String.eqb ?x ?y then _ else _] =>
             destruct (String.eqb x y);
             [ unfold Handler.passThrough, bindIO; rewrite figmaRequest_run; cbn [app];
               destruct (settle _) as [body|e]; reflexivity | ]
         end.
  reflexivity.
Qed.

End Read.

Lemma isToken_not_falsy (cls : ascii -> bool) (s : string) :
  isToken cls s = true -> falsy (Some s) = false.
Proof. intros H. apply isToken_inv in H as [_ (ch & s' & ->)]. reflexivity. Qed.

Lemma readPlan_listed (key : string) (type : FigmaResourceType.t) :
  In type (FigmaResourceType.file :: Handler.subResources) ->
  exists post,
    readPlan (mkAddress (Some key) (categoryOf type) None)
    = Some (entryPath key type, post).
Proof.
  simpl. intros [<-|[<-|[<-|[<-|[<-|[<-|[<-|[]]]]]]]]; eexists; reflexivity.
Qed.

End ReadFacts.

Import ReadFacts.

Module DispatchFacts.

Lemma settle_ok {A : Type} (response : Response A) :
  ok response = true -> settle response = OK (json response).
Proof. intros Hok. unfold settle. now rewrite Hok. Qed.

Lemma rejected_is_InvalidUriError (uri : string) :
  (forall a, validateUri uri <> OK a) ->
  validateUri uri = Throw (InvalidUriError uri).
Proof.
  intros Hno. destruct (validateUri_total uri) as [[a Ha]|H]; [|exact H].
  now destruct (Hno a).
Qed.

Lemma resolved_category (uri : string) (a : ResourceAddress) (cat : string) :
  validateUri uri = OK a -> resourceType a = Some cat ->
  falsy (resourceType a) = false /\ template (resourceType a) = cat.
Proof.
  intros Hv Hcat. apply validateUri_OK_iff in Hv as [Hg _].
  rewrite Hcat. split; [|reflexivity].
  destruct Hg; cbn [resourceType] in Hcat; try discriminate;
    injection Hcat as <-; eapply isToken_not_falsy; eassumption.
Qed.

Lemma mapM_Forall2 {A B : Type} (f : A -> result B) (l : list A) (bs : list B) :
  mapM f l = OK bs -> Forall2 (fun a b => f a = OK b) l bs.
Proof. apply mapM_OK. Qed.

Lemma fileResources_type (file : FigmaFile.t) (e : FigmaResource.t) :
  In e (fileResources file) ->
  In (FigmaResource.type e) (FigmaResourceType.file :: Handler.subResources).
Proof.
  unfold fileResources. simpl.
  intros [<-|[<-|[<-|[<-|[<-|[<-|[<-|[]]]]]]]]; simpl; tauto.
Qed.

End DispatchFacts.

Import DispatchFacts.

(** X11.  An identifier that [validateUri] rejects never reaches the remote
    service: [read] and [watch] both throw the [InvalidUriError] of the
    identifier without sending a request. *)
Theorem rejected_identifier_sends_no_request
        (stringify : value -> string) (token : string)
        (upstream : string -> Response value) (uri : string) :
  (forall a, validateUri uri <> OK a) ->
  FigmaResourceHandler.read stringify token upstream uri []
  = ([], Throw (InvalidUriError uri))
  /\ FigmaResourceHandler.watch token upstream uri []
     = ([], Throw (InvalidUriError uri)).
Proof.
  intros Hno. apply rejected_is_InvalidUriError in Hno. split.
  - now apply read_rejected.
  - now apply watch_invalid.
Qed.

Lemma rejected_identifier_sends_no_request_witness :
  let stringify := fun _ : value => "{}" in
  let token := "token" in
  let upstream := fun _ : string => mkResponse 200 "OK" Null in
    FigmaResourceHandler.read stringify token upstream "figma:///file/ABC/nodes/" []
    = ([], Throw (InvalidUriError "figma:///file/ABC/nodes/")).
Proof.
  intros stringify token upstream.
  apply (rejected_identifier_sends_no_request stringify token upstream
           "figma:///file/ABC/nodes/").
  intros a. discriminate.
Defined.

(** X12.  For an identifier whose category is none of nodes, images,
    comments, versions, components, styles and variables, [read] sends no
    request and throws the error "Unsupported resource type: <category>". *)
Theorem read_rejects_unsupported_category
        (stringify : value -> string) (token : string)
        (upstream : string -> Response value)
        (uri : string) (a : ResourceAddress) (cat : string) :
  validateUri uri = OK a ->
  resourceType a = Some cat ->
  ~ In cat readCategories ->
  FigmaResourceHandler.read stringify token upstream uri []
  = ([], Throw (Error ("Unsupported resource type: " ++ cat))).
Proof.
  intros Hv Hcat Hnot. rewrite (read_run stringify token upstream uri a Hv).
  destruct (resolved_category uri a cat Hv Hcat) as [Hf Ht].
  unfold readPlan. rewrite Hf, Ht. cbv zeta.
  unfold readCategories in Hnot. simpl in Hnot.
  repeat match goal with
         | |- context [String.eqb cat ?s] =>
             destruct (String.eqb_spec cat s) as [->|_]; [exfalso; tauto|]
         end.
  reflexivity.
Qed.

Lemma read_rejects_unsupported_category_witness :
  let stringify := fun _ : value => "{}" in
  let token := "token" in
  let upstream := fun _ : string => mkResponse 200 "OK" Null in
    FigmaResourceHandler.read stringify token upstream "figma:///file/ABC/file" []
    = ([], Throw (Error "Unsupported resource type: file")).
Proof.
  intros stringify token upstream.
  apply (read_rejects_unsupported_category stringify token upstream
           "figma:///file/ABC/file" (mkAddress (Some "ABC") (Some "file") None) "file");
    [reflexivity | reflexivity |].
  unfold readCategories. simpl. intros H.
  repeat (destruct H as [H|H]; [discriminate H|]). exact H.
Defined.

(** X13.  [read] sends at most one request, and when it returns it has sent
    exactly one and returns exactly one unit, which carries the identifier
    that was asked for and the content kind application/json. *)
Theorem read_returns_one_unit
        (stringify : value -> string) (token : string)
        (upstream : string -> Response value) (uri : string) :
  let run := FigmaResourceHandler.read stringify token upstream uri in
  length (requests run) <= 1
  /\ forall units, outcome run = OK units ->
       length (requests run) = 1
       /\ exists text, units = [ResourceContents.mk uri "application/json" text].
Proof.
  intros run. unfold requests, outcome, run.
  destruct (validateUri_total uri) as [[a Ha]|Hrej].
  - rewrite (read_run stringify token upstream uri a Ha).
    destruct (readPlan a) as [[path post]|]; cbn [fst snd length].
    + split; [lia|]. intros units Hunits. split; [reflexivity|].
      destruct (settle _) as [body|]; [|discriminate]. cbn [bind] in Hunits.
      destruct (post body) as [payload|]; [|discriminate].
      injection Hunits as <-. now eexists.
    + split; [lia | discriminate].
  - rewrite (read_rejected stringify token upstream uri _ Hrej). cbn [fst snd length].
    split; [lia | discriminate].
Qed.

Lemma read_returns_one_unit_witness :
  let stringify := fun _ : value => "{}" in
  let upstream := fun _ : string => mkResponse 200 "OK" (Obj []) in
  exists text,
    outcome (FigmaResourceHandler.read stringify "token" upstream
                                       "figma:///file/ABC/comments")
    = OK [ResourceContents.mk "figma:///file/ABC/comments" "application/json" text].
Proof.
  intros stringify upstream.
  destruct (read_returns_one_unit stringify "token" upstream "figma:///file/ABC/comments")
    as [_ Hunits].
  destruct (Hunits _ eq_refl) as [_ [text Htext]].
  exists text. now rewrite <- Htext.
Defined.

(** X14.  For the categories images, comments, versions, components, styles
    and variables [read] requests the collection of the file (for variables
    the local variables) and passes the body on as it came, without any
    transformation; a sub-identifier after such a category is ignored. *)
Theorem read_passes_collection_through
        (stringify : value -> string) (token : string)
        (upstream : string -> Response value)
        (uri key cat : string) (sub : option string) :
  validateUri uri = OK (mkAddress (Some key) (Some cat) sub) ->
  In cat ["images"; "comments"; "versions"; "components"; "styles"; "variables"] ->
  let path := "/files/" ++ key
              ++ (if String.eqb cat "variables" then "/variables/local" else "/" ++ cat) in
  let response := upstream ("https://api.figma.com/v1" ++ path) in
  ok response = true ->
  FigmaResourceHandler.read stringify token upstream uri []
  = ([mkRequest ("https://api.figma.com/v1" ++ path) token],
     OK [ResourceContents.mk uri "application/json" (stringify (json response))]).
Proof.
  intros Hv Hcat path response Hok.
  rewrite (read_run stringify token upstream uri _ Hv).
  destruct (resolved_category uri _ cat Hv eq_refl) as [Hf _].
  unfold readPlan. rewrite Hf. cbn [template resourceType fileKey]. cbv zeta.
  subst response path. simpl in Hcat.
  destruct Hcat as [<-|[<-|[<-|[<-|[<-|[<-|[]]]]]]];
    unfold requestOf; change Handler.baseUrl with "https://api.figma.com/v1";
    simpl in Hok |- *; rewrite (settle_ok _ Hok); reflexivity.
Qed.

Lemma read_passes_collection_through_witness :
  let stringify := fun v : value => match v with Str s => s | _ => "" end in
  let upstream := fun _ : string => mkResponse 200 "OK" (Str "body") in
  FigmaResourceHandler.read stringify "token" upstream "figma:///file/ABC/variables/x" []
  = ([mkRequest "https://api.figma.com/v1/files/ABC/variables/local" "token"],
     OK [ResourceContents.mk "figma:///file/ABC/variables/x" "application/json" "body"]).
Proof.
  intros stringify upstream.
  apply (read_passes_collection_through stringify "token" upstream
           "figma:///file/ABC/variables/x" "ABC" "variables" (Some "x"));
    [reflexivity | simpl; tauto | reflexivity].
Defined.

(** X15.  For a whole-document identifier [read] requests the file and
    returns the transformed document: the name, version, last-modified
    stamp and thumbnail of the body as they came, and the document tree
    transformed.  When the body is [null], or its document tree has a
    [null] or [undefined] node, the read fails with a [TypeError] after the
    request. *)
Theorem read_whole_document
        (stringify : value -> string) (token : string)
        (upstream : string -> Response value) (uri key : string) :
  validateUri uri = OK (mkAddress (Some key) None None) ->
  let response := upstream ("https://api.figma.com/v1" ++ "/files/" ++ key) in
  let body := json response in
  let run := FigmaResourceHandler.read stringify token upstream uri in
  ok response = true ->
  requests run = [mkRequest ("https://api.figma.com/v1" ++ "/files/" ++ key) token]
  /\ (nullish body = false -> wellFormed (get body "document") = true ->
      exists node,
        transformFigmaNode (get body "document") = OK node
        /\ outcome run
           = OK [ResourceContents.mk uri "application/json"
                   (stringify
                      (Obj [("name", get body "name");
                            ("version", get body "version");
                            ("lastModified", get body "lastModified");
                            ("thumbnailUrl", get body "thumbnailUrl");
                            ("document", nodeValue node)]))])
  /\ (nullish body = true \/ wellFormed (get body "document") = false ->
      outcome run = Throw TypeError).
Proof.
  intros Hv response body run Hok. unfold requests, outcome, run.
  rewrite (read_run stringify token upstream uri _ Hv).
  unfold readPlan. cbn [falsy resourceType fileKey template fst snd]. cbv zeta.
  unfold requestOf. change Handler.baseUrl with "https://api.figma.com/v1".
  fold response. rewrite (settle_ok response Hok). fold body. cbn [bind].
  rewrite transformFigmaDocument_eq.
  split; [reflexivity|]. split.
  - intros Hnn Hwf. rewrite Hnn.
    destruct (transformFigmaNode_total _ Hwf) as [node Hnode].
    exists node. split; [exact Hnode|]. now rewrite Hnode.
  - intros [Hn|Hwf]; [now rewrite Hn|].
    destruct (nullish body); [reflexivity|].
    destruct (transformFigmaNode (get body "document")) as [node|e] eqn:Hnode.
    + rewrite (transformFigmaNode_OK_wellFormed _ node Hnode) in Hwf. discriminate.
    + now rewrite (transformFigmaNode_Throw _ e Hnode).
Qed.

Lemma read_whole_document_witness :
  let stringify := fun _ : value => "{}" in
  let upstream := fun _ : string =>
    mkResponse 200 "OK" (Obj [("name", Str "Doc"); ("document", Null)]) in
  outcome (FigmaResourceHandler.read stringify "token" upstream "figma:///file/ABC")
  = Throw TypeError.
Proof.
  intros stringify upstream.
  apply (read_whole_document stringify "token" upstream "figma:///file/ABC" "ABC"
           eq_refl eq_refl).
  right. reflexivity.
Defined.

(** X16.  For the category nodes [read] requests the nodes of the file with
    the sub-identifier as the list of ids, exactly as it stands in the
    identifier (splitting at the commas and joining again changes nothing);
    without a sub-identifier the list of ids is empty. *)
Theorem read_nodes_sends_ids_verbatim
        (stringify : value -> string) (token : string)
        (upstream : string -> Response value)
        (uri key : string) (sub : option string) :
  validateUri uri = OK (mkAddress (Some key) (Some "nodes") sub) ->
  requests (FigmaResourceHandler.read stringify token upstream uri)
  = [mkRequest ("https://api.figma.com/v1" ++ "/files/" ++ key ++ "/nodes?ids="
                ++ match sub with
                   | Some ids => ids
                   | None => ""
                   end) token].
Proof.
  intros Hv. unfold requests.
  rewrite (read_run stringify token upstream uri _ Hv).
  unfold readPlan. cbn [falsy resourceType resourceId fileKey template]. cbv zeta.
  change (String.eqb "nodes" "nodes") with true. cbv iota. cbn [fst].
  unfold requestOf. change Handler.baseUrl with "https://api.figma.com/v1".
  destruct sub as [ids|]; [|reflexivity].
  change "," with (String ","%char "") at 1. now rewrite join_split.
Qed.

Lemma read_nodes_sends_ids_verbatim_witness :
  let stringify := fun _ : value => "{}" in
  let token := "token" in
  let upstream := fun _ : string => mkResponse 200 "OK" Null in
    requests (FigmaResourceHandler.read stringify token upstream
                                        "figma:///file/ABC/nodes/1:2,,1:3,")
    = [mkRequest "https://api.figma.com/v1/files/ABC/nodes?ids=1:2,,1:3," token].
Proof.
  intros stringify token upstream.
  exact (read_nodes_sends_ids_verbatim stringify token upstream
           "figma:///file/ABC/nodes/1:2,,1:3," "ABC" (Some "1:2,,1:3,") eq_refl).
Defined.

(** X17.  When the body of the nodes answer has an object under [nodes],
    what [read] serializes has the same ids, in the order the object
    enumerates them, each with its node transformed. *)
Theorem read_nodes_transforms_each_node
        (stringify : value -> string) (token : string)
        (upstream : string -> Response value)
        (uri key : string) (sub : option string)
        (props : list (string * value)) (units : list ResourceContents.t) :
  validateUri uri = OK (mkAddress (Some key) (Some "nodes") sub) ->
  let path := "/files/" ++ key ++ "/nodes?ids="
              ++ match sub with
                 | Some ids => ids
                 | None => ""
                 end in
  get (json (upstream ("https://api.figma.com/v1" ++ path))) "nodes" = Obj props ->
  outcome (FigmaResourceHandler.read stringify token upstream uri) = OK units ->
  exists transformed,
    units = [ResourceContents.mk uri "application/json"
               (stringify (Obj [("nodes", Obj transformed)]))]
    /\ Forall2 (fun raw out =>
                  fst out = fst raw
                  /\ exists node, transformFigmaNode (snd raw) = OK node
                                  /\ snd out = nodeValue node)
               (enumerated props) transformed.
Proof.
  intros Hv path Hnodes. unfold outcome.
  rewrite (read_run stringify token upstream uri _ Hv).
  unfold readPlan. cbn [falsy resourceType resourceId fileKey template]. cbv zeta.
  change (String.eqb "nodes" "nodes") with true. cbv iota. cbn [snd].
  change Handler.baseUrl with "https://api.figma.com/v1".
  replace (join "," match sub with Some ids => split "," ids | None => [] end)
    with (match sub with Some ids => ids | None => "" end).
  2:{ destruct sub as [ids|]; [|reflexivity].
      change "," with (String ","%char "") at 1. now rewrite join_split. }
  fold path.
  destruct (settle (upstream ("https://api.figma.com/v1" ++ path))) as [body|] eqn:Hs;
    [|discriminate].
  assert (Hbody : body = json (upstream ("https://api.figma.com/v1" ++ path))).
  { unfold settle in Hs.
    destruct (negb (ok _)); [|now injection Hs].
    destruct (status _ =? 404)%N; [discriminate|].
    destruct (status _ =? 403)%N; discriminate. }
  rewrite <- Hbody in Hnodes. cbn [bind].
  unfold Handler.transformNodes, getProp.
  destruct (nullish body) eqn:Hn; [destruct body; discriminate|].
  cbn [bind]. rewrite Hnodes. cbn [entries bind].
  destruct (mapM _ (enumerated props)) as [transformed|] eqn:Hmap; [|discriminate].
  cbn [bind]. intros [= <-]. exists transformed. split; [reflexivity|].
  apply mapM_Forall2 in Hmap.
  eapply Forall2_impl; [|exact Hmap].
  intros raw out Hout. cbn beta in Hout.
  destruct (transformFigmaNode (snd raw)) as [node|]; [|discriminate].
  cbn [bind] in Hout. injection Hout as <-. split; [reflexivity|]. now exists node.
Qed.

Lemma read_nodes_transforms_each_node_witness :
  let stringify := fun _ : value => "{}" in
  let raw := Obj [("id", Str "1:2"); ("name", Str "A"); ("type", Str "FRAME");
                  ("locked", Bool true)] in
  let upstream := fun _ : string =>
    mkResponse 200 "OK" (Obj [("nodes", Obj [("1:2", raw)])]) in
  exists transformed,
    Forall2 (fun raw out =>
               fst out = fst raw
               /\ exists node, transformFigmaNode (snd raw) = OK node
                               /\ snd out = nodeValue node)
            [("1:2", raw)] transformed.
Proof.
  intros stringify raw upstream.
  destruct (read_nodes_transforms_each_node stringify "token" upstream
              "figma:///file/ABC/nodes/1:2" "ABC" (Some "1:2") [("1:2", raw)] _
              eq_refl eq_refl eq_refl) as (transformed & _ & Hall).
  now exists transformed.
Defined.

(** X18.  Every identifier of the listing can be read: for a file whose key
    is one or more word or hyphen characters, [read] on an entry of the
    listing sends exactly one request, for the file itself, for the named
    collection of the file, or for its local variables. *)
Theorem listed_identifier_is_readable
        (stringify : value -> string) (token : string)
        (upstream : string -> Response value)
        (file : FigmaFile.t) (e : FigmaResource.t) :
  In e (fileResources file) ->
  isToken wordOrHyphen (FigmaFile.key file) = true ->
  requests (FigmaResourceHandler.read stringify token upstream (FigmaResource.uri e))
  = [mkRequest ("https://api.figma.com/v1"
                ++ entryPath (FigmaFile.key file) (FigmaResource.type e)) token].
Proof.
  intros He Hkey. unfold requests.
  rewrite (read_run stringify token upstream _ _ (fileResources_address file e He Hkey)).
  destruct (readPlan_listed (FigmaFile.key file) (FigmaResource.type e)
              (fileResources_type file e He)) as [post ->].
  reflexivity.
Qed.

Lemma listed_identifier_is_readable_witness :
  let stringify := fun _ : value => "{}" in
  let token := "token" in
  let upstream := fun _ : string => mkResponse 200 "OK" Null in
    let file := FigmaFile.mk "ABC" "Doc" "2024-01-01" "t.png" "1" in
    requests (FigmaResourceHandler.read stringify token upstream
                                        "figma:///file/ABC/variables")
    = [mkRequest "https://api.figma.com/v1/files/ABC/variables/local" token].
Proof.
  intros stringify token upstream file.
  apply (listed_identifier_is_readable stringify token upstream file
           (FigmaResourceHandler.subResource file FigmaResourceType.variables));
    [simpl; tauto | reflexivity].
Defined.

(** X19.  [search] sends one request, with the encoded query, and returns
    for each file of the answer, in order, the very entry the listing has
    for the whole document; when the request fails, [search] fails with the
    same error. *)
Theorem search_returns_whole_document_entries
        (encodeURIComponent : string -> string) (token : string)
        (upstream : string -> Response FileListing) (query : string) :
  let path := "/search?query=" ++ encodeURIComponent query in
  let response := upstream ("https://api.figma.com/v1" ++ path) in
  let run := FigmaResourceHandler.search encodeURIComponent token upstream query in
  requests run = [mkRequest ("https://api.figma.com/v1" ++ path) token]
  /\ (ok response = true ->
      outcome run
      = OK (map FigmaResourceHandler.mainResource (files (json response))))
  /\ (forall e,
         outcome (FigmaResourceHandler.figmaRequest token upstream path) = Throw e ->
         outcome run = Throw e).
Proof.
  intros path response run. unfold requests, outcome, run, Handler.search, bindIO.
  rewrite !figmaRequest_run. cbn [fst snd app].
  change Handler.baseUrl with "https://api.figma.com/v1". fold path response.
  unfold requestOf. change Handler.baseUrl with "https://api.figma.com/v1".
  split; [now destruct (settle response)|]. split.
  - intros Hok. now rewrite (settle_ok response Hok).
  - intros e He. now rewrite He.
Qed.

Lemma search_returns_whole_document_entries_witness :
  let file := FigmaFile.mk "ABC" "Doc" "2024-01-01" "t.png" "1" in
  let upstream := fun _ : string => mkResponse 200 "OK" (mkFileListing [file]) in
  outcome (FigmaResourceHandler.search (fun q => q) "token" upstream "doc")
  = OK [FigmaResourceHandler.mainResource file].
Proof.
  intros file upstream.
  exact (proj1 (proj2 (search_returns_whole_document_entries
                          (fun q => q) "token" upstream "doc")) eq_refl).
Defined.

(** X20.  [list] sends exactly one request, for the files of the user,
    whatever the status of the answer.  When that request fails, [list]
    fails with the same error and returns no entry; it returns entries only
    when the status of the answer is 200 to 299. *)
Theorem list_fails_with_its_request
        (token : string) (upstream : string -> Response FileListing) :
  let response := upstream "https://api.figma.com/v1/me/files" in
  requests (FigmaResourceHandler.list token upstream)
  = [mkRequest "https://api.figma.com/v1/me/files" token]
  /\ (forall e,
         outcome (FigmaResourceHandler.figmaRequest token upstream "/me/files") = Throw e ->
         outcome (FigmaResourceHandler.list token upstream) = Throw e)
  /\ (forall resources,
         outcome (FigmaResourceHandler.list token upstream) = OK resources ->
         (200 <= status response <= 299)%N).
Proof.
  intros response. unfold requests, outcome, Handler.list, bindIO.
  rewrite !figmaRequest_run. cbn [fst snd app].
  change (Handler.baseUrl ++ "/me/files") with "https://api.figma.com/v1/me/files".
  fold response.
  pose proof (settle_cases response) as Hcases. cbv zeta in Hcases.
  destruct Hcases as [[Hs ->]|[[Hs ->]|[[Hs ->]|(Hs & H4 & H3 & ->)]]];
    cbn [fst snd]; (split; [reflexivity|]); split;
    first [ discriminate | intros e [= <-]; reflexivity | intros; assumption ].
Qed.

Lemma list_fails_with_its_request_witness :
  let upstream := fun _ : string => mkResponse 403 "Forbidden" (mkFileListing []) in
  outcome (FigmaResourceHandler.list "token" upstream)
  = Throw (ResourceAccessDeniedError "Access to Figma resource denied").
Proof.
  intros upstream.
  exact (proj1 (proj2 (list_fails_with_its_request "token" upstream)) _ eq_refl).
Defined.

(** X21.  [watch] sends a request exactly for the identifiers whose category
    segment is the word file, and then for the file itself; for every other
    identifier that resolves, the whole-document identifiers among them, it
    returns without a request. *)
Theorem watch_requests_iff_category_file
        (A : Type) (token : string) (upstream : string -> Response A)
        (uri : string) (a : ResourceAddress) :
  validateUri uri = OK a ->
  (resourceType a = Some "file" ->
   requests (FigmaResourceHandler.watch token upstream uri)
   = [mkRequest ("https://api.figma.com/v1" ++ "/files/" ++ template (fileKey a)) token])
  /\ (resourceType a <> Some "file" ->
      FigmaResourceHandler.watch token upstream uri [] = ([], OK tt)).
Proof.
  intros Hv. split.
  - intros Hcat. rewrite (watch_requests token upstream uri a Hv), Hcat. reflexivity.
  - intros Hcat. unfold Handler.watch, bindIO. rewrite Hv. cbn [lift ret].
    destruct (resourceType a) as [cat|]; [|reflexivity].
    cbn [strictEq]. destruct (String.eqb_spec cat "file") as [->|_]; [|reflexivity].
    now destruct Hcat.
Qed.

Lemma watch_requests_iff_category_file_witness :
  let token := "token" in
  let upstream := fun _ : string => mkResponse 200 "OK" Null in
    FigmaResourceHandler.watch token upstream "figma:///file/ABC/comments" []
    = ([], OK tt).
Proof.
  intros token upstream.
  apply (proj2 (watch_requests_iff_category_file value token upstream
                  "figma:///file/ABC/comments" _ eq_refl)).
  discriminate.
Defined.
